(** * pyartifactory: the resource clients and the AQL query compiler

  A shallow embedding of [pyartifactory/objects.py].  Python strings are
  [string]s whose characters are read as the code points 0..255, Python
  integers are [Z], dictionaries are association lists in insertion order
  (the order [json.dumps] and [list(d.keys())] observe), and the methods
  that talk to the server are computations in a state-and-exception monad
  that records every request handed to the transport. *)

From Stdlib Require Import String Ascii List ZArith Lia Bool DecimalString.
Import ListNotations.
Open Scope string_scope.

Set Implicit Arguments.

(* ================================================================= *)
(** ** Python strings *)

Module Py.

(** The double quote and the backslash, as characters and as strings. *)
Definition dquote_char : ascii := ascii_of_nat 34.
Definition dquote : string := String dquote_char EmptyString.
Definition backslash : string := String (ascii_of_nat 92) EmptyString.

(** Literals that contain double quotes are written with apostrophes:
    [lit] turns every apostrophe of its argument into a double quote. *)
Fixpoint lit (s : string) : string :=
  match s with
  | String a s' =>
      String (if Ascii.eqb a "'"%char then dquote_char else a) (lit s')
  | EmptyString => EmptyString
  end.

(** [str(n)] for an integer. *)
Definition str_of_int (n : Z) : string :=
  NilZero.string_of_int (Z.to_int n).

(** [s.lstrip(c)] for a one-character set [c]. *)
Fixpoint lstrip (c : ascii) (s : string) : string :=
  match s with
  | String a s' => if Ascii.eqb a c then lstrip c s' else s
  | EmptyString => EmptyString
  end.

(** [c * n]: the character [c] repeated [n] times. *)
Fixpoint repeat_char (c : ascii) (n : nat) : string :=
  match n with
  | O => EmptyString
  | S n' => String c (repeat_char c n')
  end.

(** [s.replace(c, empty)] for a one-character pattern [c]. *)
Fixpoint remove_char (c : ascii) (s : string) : string :=
  match s with
  | String a s' =>
      if Ascii.eqb a c then remove_char c s' else String a (remove_char c s')
  | EmptyString => EmptyString
  end.

Fixpoint has_char (c : ascii) (s : string) : bool :=
  match s with
  | String a s' => Ascii.eqb a c || has_char c s'
  | EmptyString => false
  end.

(** [s.split(c)[-1]]: the text after the last occurrence of [c]. *)
Fixpoint last_segment (c : ascii) (s : string) : string :=
  match s with
  | String _ s' => if has_char c s then last_segment c s' else s
  | EmptyString => EmptyString
  end.

(** [s.endswith(c)] for a character [c]. *)
Fixpoint ends_with (c : ascii) (s : string) : bool :=
  match s with
  | EmptyString => false
  | String a EmptyString => Ascii.eqb a c
  | String _ s' => ends_with c s'
  end.

(** Truthiness of a string: [bool(s)]. *)
Definition truthy_str (s : string) : bool :=
  match s with EmptyString => false | _ => true end.

(** [needle in s], as a program and as a proposition. *)
Fixpoint contains (needle s : string) : bool :=
  String.prefix needle s
  || match s with
     | String _ s' => contains needle s'
     | EmptyString => false
     end.

Definition Substring (needle s : string) : Prop :=
  exists pre post, s = pre ++ needle ++ post.

End Py.

(* ================================================================= *)
(** ** [json.dumps] with its default arguments *)

Module Json.

#[warnings="-register-all"]
Inductive value : Type :=
| JNull
| JBool (b : bool)
| JInt (n : Z)
| JStr (s : string)
| JList (l : list value)
| JDict (kvs : list (string * value)).

Definition hex_digit (n : nat) : ascii :=
  nth n ["0"; "1"; "2"; "3"; "4"; "5"; "6"; "7";
         "8"; "9"; "a"; "b"; "c"; "d"; "e"; "f"]%char "0"%char.

(** One character under [ensure_ascii=True]: the short escapes, then
    [\u00xx] for everything outside the printable range [' '..'~']. *)
Definition escape_char (a : ascii) : string :=
  let n := nat_of_ascii a in
  if Nat.eqb n 34 then Py.backslash ++ Py.dquote
  else if Nat.eqb n 92 then Py.backslash ++ Py.backslash
  else if Nat.eqb n 10 then Py.backslash ++ "n"
  else if Nat.eqb n 13 then Py.backslash ++ "r"
  else if Nat.eqb n 9 then Py.backslash ++ "t"
  else if Nat.eqb n 8 then Py.backslash ++ "b"
  else if Nat.eqb n 12 then Py.backslash ++ "f"
  else if (Nat.leb 32 n && Nat.leb n 126)%bool then String a EmptyString
  else Py.backslash ++ "u00" ++ String (hex_digit (n / 16))
                   (String (hex_digit (n mod 16)) EmptyString).

Fixpoint escape (s : string) : string :=
  match s with
  | String a s' => escape_char a ++ escape s'
  | EmptyString => EmptyString
  end.

Definition dumps_str (s : string) : string :=
  Py.dquote ++ escape s ++ Py.dquote.

Fixpoint dumps (j : value) : string :=
  match j with
  | JNull => "null"
  | JBool true => "true"
  | JBool false => "false"
  | JInt n => Py.str_of_int n
  | JStr s => dumps_str s
  | JList l => "[" ++ String.concat ", " (map dumps l) ++ "]"
  | JDict kvs =>
      "{" ++ String.concat ", "
               (map (fun kv => dumps_str (fst kv) ++ ": " ++ dumps (snd kv))
                    kvs)
          ++ "}"
  end.

End Json.

(* ================================================================= *)
(** ** The query object and [create_aql_query] *)

Module AqlQuery.

(** Modelled from the spec: the [Aql] model class is declared in
    [pyartifactory.models], which is not part of the sources at hand.  Its
    fields are the ones [create_aql_query] reads.  [domain] and the keys of
    [sort] are members of string-valued enumerations: a member is known by
    its value, [domain] is the text that formatting the member yields and
    [value] is the [.value] of a sort key.  [None] is an unset optional
    field. *)
Record SortKey : Type := { value : string }.

Record Aql : Type := {
  domain : string;
  find : option (list (string * Json.value));
  include : option (list string);
  sort : option (list (SortKey * list string));
  offset : option Z;
  limit : option Z
}.

Definition SortKey_eqb (a b : SortKey) : bool := String.eqb (value a) (value b).

(** [d[k]] on a mapping held in insertion order. *)
Fixpoint getitem (V : Type) (d : list (SortKey * V)) (k : SortKey) : option V :=
  match d with
  | (k', v) :: d' => if SortKey_eqb k' k then Some v else getitem d' k
  | [] => None
  end.

(** The five steps of [create_aql_query], one clause each.  Each [if] of
    the source tests the truth value of a field: an unset field, an empty
    mapping or list and the integer 0 are false. *)
Definition find_clause (q : Aql) : string :=
  match find q with
  | Some ((_ :: _) as d) => "(" ++ Json.dumps (Json.JDict d) ++ ")"
  | _ => "()"
  end.

Definition include_clause (q : Aql) : string :=
  match include q with
  | Some ((_ :: _) as l) =>
      let format_include :=
        Py.remove_char "]"
          (Py.remove_char "[" (Json.dumps (Json.JList (map Json.JStr l)))) in
      ".include(" ++ format_include ++ ")"
  | _ => ""
  end.

(** [sort_key] is the first key of the mapping and [sort_value] the dump of
    what the mapping holds under it; the lookup cannot miss, the key having
    just been read from the mapping. *)
Definition sort_clause (q : Aql) : string :=
  match sort q with
  | Some (((sort_key, _) :: _) as d) =>
      match getitem d sort_key with
      | Some l =>
          let sort_value := Json.dumps (Json.JList (map Json.JStr l)) in
          ".sort({" ++ Py.dquote ++ value sort_key ++ Py.dquote ++ ": "
            ++ sort_value ++ "})"
      | None => ""
      end
  | _ => ""
  end.

Definition offset_clause (q : Aql) : string :=
  match offset q with
  | Some n => if Z.eqb n 0 then "" else ".offset(" ++ Py.str_of_int n ++ ")"
  | None => ""
  end.

Definition limit_clause (q : Aql) : string :=
  match limit q with
  | Some n => if Z.eqb n 0 then "" else ".limit(" ++ Py.str_of_int n ++ ")"
  | None => ""
  end.

Definition create_aql_query (aql_object : Aql) : string :=
  let aql_query_text := domain aql_object ++ ".find" in
  let aql_query_text := aql_query_text ++ find_clause aql_object in
  let aql_query_text := aql_query_text ++ include_clause aql_object in
  let aql_query_text := aql_query_text ++ sort_clause aql_object in
  let aql_query_text := aql_query_text ++ offset_clause aql_object in
  let aql_query_text := aql_query_text ++ limit_clause aql_object in
  aql_query_text.

(** The sort fragment in the words of the specification: the key between
    double quotes, a colon and the JSON text of the value list, in
    [.sort({...})]. *)
Definition sort_fragment (key : SortKey) (values : list string) : string :=
  ".sort({" ++ Py.dquote ++ value key ++ Py.dquote ++ ": "
    ++ Json.dumps (Json.JList (map Json.JStr values)) ++ "})".

(** Replacing one field of a query object. *)
Definition with_sort (q : Aql) (s : option (list (SortKey * list string))) : Aql :=
  {| domain := domain q; find := find q; include := include q;
     sort := s; offset := offset q; limit := limit q |}.

Definition with_offset (q : Aql) (o : option Z) : Aql :=
  {| domain := domain q; find := find q; include := include q;
     sort := sort q; offset := o; limit := limit q |}.

Definition with_limit (q : Aql) (l : option Z) : Aql :=
  {| domain := domain q; find := find q; include := include q;
     sort := sort q; offset := offset q; limit := l |}.

End AqlQuery.

(* ================================================================= *)
(** ** The transport: requests, responses, exceptions *)

Module Http.

Inductive method : Type := GET | POST | PUT | DELETE.

(** What a call passes as [json=], as [data=] (a form, a text or an open
    file, held by its content), or nothing. *)
Inductive payload : Type :=
| NoBody
| JsonBody (j : Json.value)
| FormBody (d : list (string * option string))
| TextBody (s : string)
| FileBody (content : string).

(** [AuthModel] of [models/Auth.py]; the secret is held in the clear. *)
Record AuthModel : Type := {
  url : string;
  auth : string * string;
  verify : bool;
  cert : option string
}.

(** One call of a method of [requests.Session], with every argument that
    [_generic_http_method_request] hands over. *)
Record Request : Type := {
  req_method : method;
  req_url : string;
  req_auth : string * string;
  req_params : list (string * Json.value);
  req_body : payload;
  req_stream : bool;
  req_verify : bool;
  req_cert : option string
}.

(** A [requests.Response]: [json] is what [response.json()] returns, [None]
    when the body is not a JSON document. *)
Record Response : Type := {
  status_code : Z;
  json : option Json.value;
  content : string
}.

(** [response.ok] and the test of [response.raise_for_status()]: an error
    status is one from 400 to 599. *)
Definition is_error (r : Response) : bool :=
  (Z.leb 400 (status_code r) && Z.ltb (status_code r) 600)%bool.

Definition ok (r : Response) : bool := negb (is_error r).

(** [response.iter_content(chunk_size=n)]: the content cut into pieces of
    [n] characters, the last one shorter. *)
Fixpoint pieces (fuel n : nat) (s : string) : list string :=
  match fuel with
  | O => []
  | S fuel' =>
      match s with
      | EmptyString => []
      | _ => substring 0 n s :: pieces fuel' n (substring n (String.length s - n) s)
      end
  end.

Definition iter_content (chunk_size : nat) (r : Response) : list string :=
  pieces (String.length (content r)) chunk_size (content r).

(** The keyword arguments a method forwards to the session. *)
Record kwargs : Type := {
  params : list (string * Json.value);
  body : payload;
  stream : bool
}.

Definition no_kwargs : kwargs :=
  {| params := []; body := NoBody; stream := false |}.

(** The HTTP session and the server behind it are external: whatever they
    are, a request yields a response and a new state of the world. *)
Class Transport (World : Type) : Type :=
  send : Request -> World -> Response * World.

End Http.

(** The model classes that a response body is parsed into. *)
Inductive model_class : Type :=
| UserResponse
| GroupModel
| PermissionModel
| AnyRepositoryResponse
| ArtifactInfoResponse
| ArtifactPropertiesResponse
| ArtifactStatsResponse.

(** Validation of a JSON document against a model class is external too:
    it yields an object or fails. *)
Class Models (Obj : Type) : Type :=
  parse_obj_as : model_class -> Json.value -> option Obj.

(** Modelled from the spec: [pyartifactory.exception] is not part of the
    sources at hand.  The exception classes are pairwise distinct kinds, so
    a handler for one of them catches no other; [ArtifactoryException]
    carries the error it was raised from.  [PropertyNotFoundException] is
    held by the two values its message is formatted from.  The last four
    are built-in: what opening a file or making a directory raises, [OSError]
    standing for the subclasses not named here, by the name of the error. *)
Inductive exn : Type :=
| HTTPError (response : Http.Response)
| ArtifactoryException (cause : exn)
| UserNotFoundException (msg : string)
| UserAlreadyExistsException (msg : string)
| GroupNotFoundException (msg : string)
| GroupAlreadyExistsException (msg : string)
| RepositoryNotFoundException (msg : string)
| RepositoryAlreadyExistsException (msg : string)
| PermissionNotFoundException (msg : string)
| PermissionAlreadyExistsException (msg : string)
| ArtifactNotFoundException (msg : string)
| PropertyNotFoundException (properties : list string) (artifact_path : string)
| InvalidTokenDataException
| ValidationError
| JSONDecodeError
| FileNotFoundError (path : string)
| FileExistsError (path : string)
| IsADirectoryError (path : string)
| OSError (errno : string) (path : string).

(* ================================================================= *)
(** ** Computations: state, request log and exceptions *)

Module Run.

Inductive result (A : Type) : Type :=
| Ok (a : A)
| Raise (e : exn).
Arguments Raise {A} e.

(** The state a method runs in: the world behind the transport, the
    requests sent so far (oldest first) and the local files by path. *)
Record state (W : Type) : Type := {
  world : W;
  sent : list Http.Request;
  files : list (string * string)
}.

Definition M (W A : Type) : Type := state W -> result A * state W.

Definition ret {W A : Type} (a : A) : M W A := fun s => (Ok a, s).

Definition raise {W A : Type} (e : exn) : M W A := fun s => (Raise e, s).

Definition bind {W A B : Type} (m : M W A) (k : A -> M W B) : M W B :=
  fun s =>
    match m s with
    | (Ok a, s') => k a s'
    | (Raise e, s') => (Raise e, s')
    end.

(** [try: body except ...: handler]; [handler e] is [None] when no clause
    matches [e], which then propagates. *)
Definition try_except {W A : Type} (body : M W A) (handler : exn -> option (M W A))
  : M W A :=
  fun s =>
    match body s with
    | (Ok a, s') => (Ok a, s')
    | (Raise e, s') =>
        match handler e with
        | Some h => h s'
        | None => (Raise e, s')
        end
    end.

(** Handing a request to the transport: [reply] is the response it gives
    in a state and [after] the state it leaves, with the request logged. *)
Definition reply {W : Type} {T : Http.Transport W} (r : Http.Request)
    (s : state W) : Http.Response :=
  fst (Http.send r (world s)).

Definition after {W : Type} {T : Http.Transport W} (r : Http.Request)
    (s : state W) : state W :=
  {| world := snd (Http.send r (world s));
     sent := sent s ++ [r];
     files := files s |}.

Definition request {W : Type} {T : Http.Transport W} (r : Http.Request)
  : M W Http.Response :=
  fun s => (Ok (reply r s), after r s).

(** Local files: [open(path, 'rb')] with its content read, and further
    down [open(path, 'wb')] and [file.write(chunk)]. *)
Fixpoint lookup (path : string) (fs : list (string * string)) : option string :=
  match fs with
  | (p, c) :: fs' => if String.eqb p path then Some c else lookup path fs'
  | [] => None
  end.

Fixpoint store (path : string) (f : string -> string) (fs : list (string * string))
  : list (string * string) :=
  match fs with
  | (p, c) :: fs' =>
      if String.eqb p path then (p, f c) :: fs' else (p, c) :: store path f fs'
  | [] => [(path, f EmptyString)]
  end.

Definition open_rb {W : Type} (path : string) : M W string :=
  fun s =>
    match lookup path (files s) with
    | Some c => (Ok c, s)
    | None => (Raise (FileNotFoundError path), s)
    end.

(** The local directory tree is part of the world outside the program:
    whether a directory can be made or a file created is decided there.
    Each operation gives the exception it raises, if any, and the world it
    leaves; [files] holds the content of the regular files, by path. *)
Class Disk (W : Type) : Type := {
  disk_mkdir : string -> W -> option exn * W;
  disk_create : string -> W -> option exn * W
}.

(** [Path(d).mkdir(parents=True, exist_ok=True)]: a regular file at [d]
    makes it raise [FileExistsError]; otherwise the directory tree
    decides. *)
Definition mkdir {W : Type} {D : Disk W} (d : string) : M W unit :=
  fun s =>
    match lookup d (files s) with
    | Some _ => (Raise (FileExistsError d), s)
    | None =>
        (match fst (disk_mkdir d (world s)) with
         | Some e => Raise e
         | None => Ok tt
         end,
         {| world := snd (disk_mkdir d (world s)); sent := sent s;
            files := files s |})
    end.

(** [open(path, 'wb')]: the empty path names no file and a path that ends in
    a slash names a directory, so both raise; otherwise the directory tree
    decides, and the file is created empty when it agrees. *)
Definition open_wb {W : Type} {D : Disk W} (path : string) : M W unit :=
  fun s =>
    match path with
    | EmptyString => (Raise (FileNotFoundError path), s)
    | _ =>
        let s' := {| world := snd (disk_create path (world s)); sent := sent s;
                     files := files s |} in
        match fst (disk_create path (world s)) with
        | Some e => (Raise e, s')
        | None =>
            if Py.ends_with "/" path then (Raise (IsADirectoryError path), s')
            else
              (Ok tt,
               {| world := snd (disk_create path (world s)); sent := sent s;
                  files := store path (fun _ => EmptyString) (files s) |})
        end
    end.

Definition write {W : Type} (path chunk : string) : M W unit :=
  fun s =>
    (Ok tt, {| world := world s; sent := sent s;
               files := store path (fun c => c ++ chunk) (files s) |}).

(** A fresh run: nothing sent yet. *)
Definition start {W : Type} (w : W) (fs : list (string * string)) : state W :=
  {| world := w; sent := []; files := fs |}.

End Run.

Import Run.

Declare Scope py_scope.
Delimit Scope py_scope with py.
Notation "x <- m ;; k" := (bind m (fun x => k))
  (at level 61, m at next level, right associativity) : py_scope.
Notation "m ;;; k" := (bind m (fun _ => k))
  (at level 61, right associativity) : py_scope.
Open Scope py_scope.

(* ================================================================= *)
(** ** The records a caller passes in *)

(** Modelled from the spec: the pydantic models of [pyartifactory.models]
    (other than [AuthModel]) are not part of the sources at hand.  A record
    is held by what the methods read from it: the string that identifies it
    remotely ([name], or [key] for a repository) and the mapping that
    [.dict()] returns, in field order. *)
Module Model.

Definition fields : Type := list (string * Json.value).

Record NewUser : Type := {
  new_user_name : string;
  new_user_password : string;
  new_user_dict : fields
}.

Record User : Type := { user_name : string; user_dict : fields }.

Record Group : Type := { group_name : string; group_dict : fields }.

Record Permission : Type := { permission_name : string; permission_dict : fields }.

Record AnyRepository : Type := { repo_key : string; repo_dict : fields }.

(** [d[k] = v] on a mapping held in insertion order. *)
Fixpoint setitem (d : fields) (k : string) (v : Json.value) : fields :=
  match d with
  | (k', v') :: d' =>
      if String.eqb k' k then (k', v) :: d' else (k', v') :: setitem d' k v
  | [] => [(k, v)]
  end.

(** [.dict(exclude=names)]: the mapping without the named fields. *)
Definition exclude (names : list string) (d : fields) : fields :=
  filter (fun kv => negb (existsb (String.eqb (fst kv)) names)) d.

End Model.

(* ================================================================= *)
(** ** [class ArtifactoryObject] *)

Module ArtifactoryObject.
Section WithTransport.
Context {W : Type} {T : Http.Transport W}.
Variable self : Http.AuthModel.

(** The call [http_method(url, auth=..., **kwargs, verify=..., cert=...)]. *)
Definition http_call (method : Http.method) (route : string) (kw : Http.kwargs)
  : Http.Request :=
  {| Http.req_method := method;
     Http.req_url := Http.url self ++ "/" ++ route;
     Http.req_auth := Http.auth self;
     Http.req_params := Http.params kw;
     Http.req_body := Http.body kw;
     Http.req_stream := Http.stream kw;
     Http.req_verify := Http.verify self;
     Http.req_cert := Http.cert self |}.

Definition _generic_http_method_request (method : Http.method) (route : string)
    (raise_for_status : bool) (kw : Http.kwargs) : M W Http.Response :=
  response <- request (http_call method route kw) ;;
  if (raise_for_status && Http.is_error response)%bool
  then raise (HTTPError response)
  else ret response.

Definition _get (route : string) (kw : Http.kwargs) : M W Http.Response :=
  _generic_http_method_request Http.GET route true kw.

Definition _post (route : string) (kw : Http.kwargs) : M W Http.Response :=
  _generic_http_method_request Http.POST route true kw.

Definition _put (route : string) (kw : Http.kwargs) : M W Http.Response :=
  _generic_http_method_request Http.PUT route true kw.

Definition _delete (route : string) (kw : Http.kwargs) : M W Http.Response :=
  _generic_http_method_request Http.DELETE route true kw.

(** Building a model object from [response.json()], by the constructor of
    the class or by [parse_obj_as]; it touches neither server nor files. *)
Definition parsed {Obj : Type} {Md : Models Obj} (cls : model_class)
    (response : Http.Response) : result Obj :=
  match Http.json response with
  | None => Raise JSONDecodeError
  | Some j =>
      match parse_obj_as cls j with
      | Some o => Ok o
      | None => Raise ValidationError
      end
  end.

Definition parse {Obj : Type} {Md : Models Obj} (cls : model_class)
    (response : Http.Response) : M W Obj :=
  fun s => (parsed cls response, s).

(** The [except requests.exceptions.HTTPError as error] clause shared by
    the four [get] methods: 404 and 400 mean the resource is absent. *)
Definition except_HTTPError_404_400 {A : Type} (not_found : exn) (error : exn)
  : option (M W A) :=
  match error with
  | HTTPError response =>
      if (Z.eqb (Http.status_code response) 404
          || Z.eqb (Http.status_code response) 400)%bool
      then Some (raise not_found)
      else Some (raise (ArtifactoryException error))
  | _ => None
  end.

(** The same clause in [ArtifactoryArtifact]: 404 alone. *)
Definition except_HTTPError_404 {A : Type} (not_found : exn) (error : exn)
  : option (M W A) :=
  match error with
  | HTTPError response =>
      if Z.eqb (Http.status_code response) 404
      then Some (raise not_found)
      else Some (raise (ArtifactoryException error))
  | _ => None
  end.

Definition json_kw (d : Model.fields) : Http.kwargs :=
  {| Http.params := []; Http.body := Http.JsonBody (Json.JDict d);
     Http.stream := false |}.

End WithTransport.
End ArtifactoryObject.

Import ArtifactoryObject.

(* ================================================================= *)
(** ** [class ArtifactoryUser] *)

Module ArtifactoryUser.
Section WithTransport.
Context {W : Type} {T : Http.Transport W} {Obj : Type} {Md : Models Obj}.
Variable self : Http.AuthModel.

Definition _uri : string := "security/users".

Definition get (name : string) : M W Obj :=
  try_except
    (response <- _get self ("api/" ++ _uri ++ "/" ++ name) Http.no_kwargs ;;
     parse UserResponse response)
    (except_HTTPError_404_400
       (UserNotFoundException (name ++ " does not exist"))).

Definition create (user : Model.NewUser) : M W Obj :=
  let username := Model.new_user_name user in
  try_except
    (get username ;;;
     raise (UserAlreadyExistsException ("User " ++ username ++ " already exists")))
    (fun e =>
       match e with
       | UserNotFoundException _ =>
           Some
             (let data := Model.new_user_dict user in
              let data :=
                Model.setitem data "password"
                  (Json.JStr (Model.new_user_password user)) in
              _put self ("api/" ++ _uri ++ "/" ++ username) (json_kw data) ;;;
              get (Model.new_user_name user))
       | _ => None
       end).

Definition update (user : Model.User) : M W Obj :=
  let username := Model.user_name user in
  get username ;;;
  _post self ("api/" ++ _uri ++ "/" ++ username) (json_kw (Model.user_dict user)) ;;;
  _post self ("api/" ++ _uri ++ "/" ++ username)
    (json_kw (Model.exclude ["lastLoggedIn"; "realm"] (Model.user_dict user))) ;;;
  get username.

Definition delete (name : string) : M W unit :=
  get name ;;;
  _delete self ("api/" ++ _uri ++ "/" ++ name) Http.no_kwargs ;;;
  ret tt.

End WithTransport.
End ArtifactoryUser.

(* ================================================================= *)
(** ** [class ArtifactoryGroup] *)

Module ArtifactoryGroup.
Section WithTransport.
Context {W : Type} {T : Http.Transport W} {Obj : Type} {Md : Models Obj}.
Variable self : Http.AuthModel.

Definition _uri : string := "security/groups".

Definition get (name : string) : M W Obj :=
  try_except
    (response <- _get self ("api/" ++ _uri ++ "/" ++ name)
       {| Http.params := [("includeUsers", Json.JBool true)];
          Http.body := Http.NoBody; Http.stream := false |} ;;
     parse GroupModel response)
    (except_HTTPError_404_400
       (GroupNotFoundException ("Group " ++ name ++ " does not exist"))).

Definition create (group : Model.Group) : M W Obj :=
  let group_name := Model.group_name group in
  try_except
    (get group_name ;;;
     raise (GroupAlreadyExistsException
              ("Group " ++ group_name ++ " already exists")))
    (fun e =>
       match e with
       | GroupNotFoundException _ =>
           Some
             (_put self ("api/" ++ _uri ++ "/" ++ group_name)
                (json_kw (Model.group_dict group)) ;;;
              get (Model.group_name group))
       | _ => None
       end).

Definition update (group : Model.Group) : M W Obj :=
  let group_name := Model.group_name group in
  get group_name ;;;
  _post self ("api/" ++ _uri ++ "/" ++ group_name)
    (json_kw (Model.group_dict group)) ;;;
  get group_name.

Definition delete (name : string) : M W unit :=
  get name ;;;
  _delete self ("api/" ++ _uri ++ "/" ++ name) Http.no_kwargs ;;;
  ret tt.

End WithTransport.
End ArtifactoryGroup.

(* ================================================================= *)
(** ** [class ArtifactoryRepository] *)

Module ArtifactoryRepository.
Section WithTransport.
Context {W : Type} {T : Http.Transport W} {Obj : Type} {Md : Models Obj}.
Variable self : Http.AuthModel.

Definition _uri : string := "repositories".

Definition get_repo (repo_name : string) : M W Obj :=
  try_except
    (response <- _get self ("api/" ++ _uri ++ "/" ++ repo_name) Http.no_kwargs ;;
     parse AnyRepositoryResponse response)
    (except_HTTPError_404_400
       (RepositoryNotFoundException
          (" Repository " ++ repo_name ++ " does not exist"))).

Definition create_repo (repo : Model.AnyRepository) : M W Obj :=
  let repo_name := Model.repo_key repo in
  try_except
    (get_repo repo_name ;;;
     raise (RepositoryAlreadyExistsException
              ("Repository " ++ repo_name ++ " already exists")))
    (fun e =>
       match e with
       | RepositoryNotFoundException _ =>
           Some
             (_put self ("api/" ++ _uri ++ "/" ++ repo_name)
                (json_kw (Model.repo_dict repo)) ;;;
              get_repo repo_name)
       | _ => None
       end).

Definition update_repo (repo : Model.AnyRepository) : M W Obj :=
  let repo_name := Model.repo_key repo in
  get_repo repo_name ;;;
  _post self ("api/" ++ _uri ++ "/" ++ repo_name)
    (json_kw (Model.repo_dict repo)) ;;;
  get_repo repo_name.

End WithTransport.
End ArtifactoryRepository.

(* ================================================================= *)
(** ** [class ArtifactoryPermission] *)

Module ArtifactoryPermission.
Section WithTransport.
Context {W : Type} {T : Http.Transport W} {Obj : Type} {Md : Models Obj}.
Variable self : Http.AuthModel.

Definition _uri : string := "security/permissions".

Definition get (permission_name : string) : M W Obj :=
  try_except
    (response <- _get self ("api/" ++ _uri ++ "/" ++ permission_name)
       Http.no_kwargs ;;
     parse PermissionModel response)
    (except_HTTPError_404_400
       (PermissionNotFoundException
          ("Permission " ++ permission_name ++ " does not exist"))).

Definition create (permission : Model.Permission) : M W Obj :=
  let permission_name := Model.permission_name permission in
  try_except
    (get permission_name ;;;
     raise (PermissionAlreadyExistsException
              ("Permission " ++ permission_name ++ " already exists")))
    (fun e =>
       match e with
       | PermissionNotFoundException _ =>
           Some
             (_put self ("api/" ++ _uri ++ "/" ++ permission_name)
                (json_kw (Model.permission_dict permission)) ;;;
              get permission_name)
       | _ => None
       end).

Definition update (permission : Model.Permission) : M W Obj :=
  let permission_name := Model.permission_name permission in
  _put self ("api/" ++ _uri ++ "/" ++ permission_name)
    (json_kw (Model.permission_dict permission)) ;;;
  get permission_name.

Definition delete (permission_name : string) : M W unit :=
  get permission_name ;;;
  _delete self ("api/" ++ _uri ++ "/" ++ permission_name) Http.no_kwargs ;;;
  ret tt.

End WithTransport.
End ArtifactoryPermission.

(* ================================================================= *)
(** ** [class ArtifactorySecurity] *)

Module ArtifactorySecurity.
Section WithTransport.
Context {W : Type} {T : Http.Transport W}.
Variable self : Http.AuthModel.

Definition _uri : string := "security".

(** Truthiness of an optional string: [None] and the empty string are
    false. *)
Definition truthy (o : option string) : bool :=
  match o with
  | Some s => Py.truthy_str s
  | None => false
  end.

Definition revoke_access_token (token token_id : option string) : M W bool :=
  if negb (existsb truthy [token; token_id])
  then raise InvalidTokenDataException
  else
    let payload :=
      if truthy token then [("token", token)] else [("token_id", token_id)] in
    response <- _generic_http_method_request self Http.POST
      ("api/" ++ _uri ++ "/token/revoke") false
      {| Http.params := []; Http.body := Http.FormBody payload;
         Http.stream := false |} ;;
    if Http.ok response then ret true else ret false.

(** The request [revoke_access_token] sends once its arguments pass. *)
Definition revoke_request (token token_id : option string) : Http.Request :=
  http_call self Http.POST "api/security/token/revoke"
    {| Http.params := [];
       Http.body :=
         Http.FormBody
           (if truthy token then [("token", token)] else [("token_id", token_id)]);
       Http.stream := false |}.

End WithTransport.
End ArtifactorySecurity.

(* ================================================================= *)
(** ** [class ArtifactoryArtifact] *)

Module ArtifactoryArtifact.
Section WithTransport.
Context {W : Type} {T : Http.Transport W} {Dk : Disk W} {Obj : Type}
        {Md : Models Obj}.
Variable self : Http.AuthModel.

Definition info (artifact_path : string) : M W Obj :=
  let artifact_path := Py.lstrip "/" artifact_path in
  try_except
    (response <- _get self ("api/storage/" ++ artifact_path) Http.no_kwargs ;;
     parse ArtifactInfoResponse response)
    (except_HTTPError_404
       (ArtifactNotFoundException
          ("Artifact " ++ artifact_path ++ " does not exist"))).

Definition deploy (local_file_location artifact_path : string) : M W Obj :=
  let artifact_path := Py.lstrip "/" artifact_path in
  file <- open_rb local_file_location ;;
  _put self artifact_path
    {| Http.params := []; Http.body := Http.FileBody file;
       Http.stream := false |} ;;;
  info artifact_path.

(** The loop [for chunk in response.iter_content(...)] with its filter on
    empty chunks. *)
Definition write_chunks (path : string) (chunks : list string) : M W unit :=
  fold_right
    (fun chunk rest =>
       (if Py.truthy_str chunk then write path chunk else ret tt) ;;; rest)
    (ret tt) chunks.

(** The branch on [local_directory_path]: the directory is made when one is
    given, and the path of the local file comes out. *)
Definition local_target (local_filename : string)
    (local_directory_path : option string) : M W string :=
  match local_directory_path with
  | Some (String _ _ as d) => mkdir d ;;; ret (d ++ "/" ++ local_filename)
  | _ => ret local_filename
  end.

Definition download (artifact_path : string) (local_directory_path : option string)
  : M W string :=
  let artifact_path := Py.lstrip "/" artifact_path in
  let local_filename := Py.last_segment "/" artifact_path in
  local_file_full_path <- local_target local_filename local_directory_path ;;
  response <- _get self artifact_path
    {| Http.params := []; Http.body := Http.NoBody; Http.stream := true |} ;;
  open_wb local_file_full_path ;;;
  write_chunks local_file_full_path (Http.iter_content (8 * 1024) response) ;;;
  ret local_file_full_path.

Definition properties (artifact_path : string) (properties : option (list string))
  : M W Obj :=
  let properties := match properties with Some l => l | None => [] end in
  let artifact_path := Py.lstrip "/" artifact_path in
  try_except
    (response <- _get self ("api/storage/" ++ artifact_path)
       {| Http.params :=
            [("properties", Json.JStr (String.concat "," properties))];
          Http.body := Http.NoBody; Http.stream := false |} ;;
     parse ArtifactPropertiesResponse response)
    (except_HTTPError_404 (PropertyNotFoundException properties artifact_path)).

Definition stats (artifact_path : string) : M W Obj :=
  let artifact_path := Py.lstrip "/" artifact_path in
  response <- _get self ("api/storage/" ++ artifact_path ++ "?stats")
    Http.no_kwargs ;;
  parse ArtifactStatsResponse response.

Definition copy (artifact_current_path artifact_new_path : string) (dryrun : bool)
  : M W Obj :=
  let artifact_current_path := Py.lstrip "/" artifact_current_path in
  let artifact_new_path := Py.lstrip "/" artifact_new_path in
  let dry := if dryrun then 1%Z else 0%Z in
  _post self
    ("api/copy/" ++ artifact_current_path ++ "?to=" ++ artifact_new_path
       ++ "&dry=" ++ Py.str_of_int dry) Http.no_kwargs ;;;
  info artifact_new_path.

Definition move (artifact_current_path artifact_new_path : string) (dryrun : bool)
  : M W Obj :=
  let artifact_current_path := Py.lstrip "/" artifact_current_path in
  let artifact_new_path := Py.lstrip "/" artifact_new_path in
  let dry := if dryrun then 1%Z else 0%Z in
  _post self
    ("api/move/" ++ artifact_current_path ++ "?to=" ++ artifact_new_path
       ++ "&dry=" ++ Py.str_of_int dry) Http.no_kwargs ;;;
  info artifact_new_path.

Definition delete (artifact_path : string) : M W unit :=
  let artifact_path := Py.lstrip "/" artifact_path in
  _delete self artifact_path Http.no_kwargs ;;;
  ret tt.

End WithTransport.
End ArtifactoryArtifact.

(* ================================================================= *)
(** ** Two transports to run the clients against *)

Module Demo.

(** A server that keeps the documents written to it, by URL. *)
Definition store : Type := list (string * Json.value).

Fixpoint fetch (u : string) (w : store) : option Json.value :=
  match w with
  | (u', j) :: w' => if String.eqb u' u then Some j else fetch u w'
  | [] => None
  end.

Fixpoint remove (u : string) (w : store) : store :=
  match w with
  | (u', j) :: w' => if String.eqb u' u then remove u w' else (u', j) :: remove u w'
  | [] => []
  end.

Definition document (p : Http.payload) : Json.value :=
  match p with
  | Http.JsonBody j => j
  | Http.FileBody c | Http.TextBody c => Json.JStr c
  | _ => Json.JNull
  end.

Definition reply (status : Z) (j : option Json.value) : Http.Response :=
  {| Http.status_code := status; Http.json := j;
     Http.content := match j with Some v => Json.dumps v | None => "" end |}.

Definition serve (r : Http.Request) (w : store) : Http.Response * store :=
  let u := Http.req_url r in
  match Http.req_method r, fetch u w with
  | Http.GET, Some j => (reply 200 (Some j), w)
  | Http.PUT, _ => (reply 201 None, (u, document (Http.req_body r)) :: remove u w)
  | Http.POST, Some _ =>
      (reply 200 None, (u, document (Http.req_body r)) :: remove u w)
  | Http.DELETE, Some _ => (reply 204 None, remove u w)
  | _, None => (reply 404 None, w)
  end.

#[global] Instance store_transport : Http.Transport store := serve.

(** A transport that plays back a script of responses, one per request, and
    answers 500 once the script is over. *)
Definition script : Type := list Http.Response.

Definition play (_ : Http.Request) (w : script) : Http.Response * script :=
  match w with
  | r :: w' => (r, w')
  | [] => (reply 500 None, [])
  end.

#[global] Instance script_transport : Http.Transport script := play.

(** Behind both, a directory tree that refuses nothing. *)
#[global] Instance store_disk : Disk store :=
  {| disk_mkdir := fun _ w => (None, w); disk_create := fun _ w => (None, w) |}.


(** Every JSON object is accepted as an object of every model class. *)
#[global] Instance any_object : Models Json.value :=
  fun _ j => match j with Json.JDict _ => Some j | _ => None end.

Definition server : Http.AuthModel :=
  {| Http.url := "http://localhost/artifactory";
     Http.auth := ("admin", "secret");
     Http.verify := true;
     Http.cert := None |}.

End Demo.

(* ================================================================= *)
(** ** The four resource kinds side by side *)

Module Crud.

Inductive kind : Type := Users | Groups | Permissions | Repositories.

(** What [create] takes, per kind. *)
Inductive new_record : Type :=
| NewUserRecord (user : Model.NewUser)
| NewGroupRecord (group : Model.Group)
| NewPermissionRecord (permission : Model.Permission)
| NewRepositoryRecord (repo : Model.AnyRepository).

(** What [update] takes, per kind. *)
Inductive record : Type :=
| UserRecord (user : Model.User)
| GroupRecord (group : Model.Group)
| PermissionRecord (permission : Model.Permission)
| RepositoryRecord (repo : Model.AnyRepository).

Definition kind_of_new (r : new_record) : kind :=
  match r with
  | NewUserRecord _ => Users
  | NewGroupRecord _ => Groups
  | NewPermissionRecord _ => Permissions
  | NewRepositoryRecord _ => Repositories
  end.

Definition id_of_new (r : new_record) : string :=
  match r with
  | NewUserRecord user => Model.new_user_name user
  | NewGroupRecord group => Model.group_name group
  | NewPermissionRecord permission => Model.permission_name permission
  | NewRepositoryRecord repo => Model.repo_key repo
  end.

Definition kind_of (r : record) : kind :=
  match r with
  | UserRecord _ => Users
  | GroupRecord _ => Groups
  | PermissionRecord _ => Permissions
  | RepositoryRecord _ => Repositories
  end.

Definition id_of (r : record) : string :=
  match r with
  | UserRecord user => Model.user_name user
  | GroupRecord group => Model.group_name group
  | PermissionRecord permission => Model.permission_name permission
  | RepositoryRecord repo => Model.repo_key repo
  end.

Definition dict_of (r : record) : Model.fields :=
  match r with
  | UserRecord user => Model.user_dict user
  | GroupRecord group => Model.group_dict group
  | PermissionRecord permission => Model.permission_dict permission
  | RepositoryRecord repo => Model.repo_dict repo
  end.

Definition uri (k : kind) : string :=
  match k with
  | Users => ArtifactoryUser._uri
  | Groups => ArtifactoryGroup._uri
  | Permissions => ArtifactoryPermission._uri
  | Repositories => ArtifactoryRepository._uri
  end.

(** The exceptions of a kind, with the messages the methods format. *)
Definition not_found (k : kind) (id : string) : exn :=
  match k with
  | Users => UserNotFoundException (id ++ " does not exist")
  | Groups => GroupNotFoundException ("Group " ++ id ++ " does not exist")
  | Permissions =>
      PermissionNotFoundException ("Permission " ++ id ++ " does not exist")
  | Repositories =>
      RepositoryNotFoundException (" Repository " ++ id ++ " does not exist")
  end.

Definition already_exists (k : kind) (id : string) : exn :=
  match k with
  | Users => UserAlreadyExistsException ("User " ++ id ++ " already exists")
  | Groups => GroupAlreadyExistsException ("Group " ++ id ++ " already exists")
  | Permissions =>
      PermissionAlreadyExistsException ("Permission " ++ id ++ " already exists")
  | Repositories =>
      RepositoryAlreadyExistsException ("Repository " ++ id ++ " already exists")
  end.

Definition is_write (r : Http.Request) : bool :=
  match Http.req_method r with
  | Http.GET => false
  | _ => true
  end.

Section WithTransport.
Context {W : Type} {T : Http.Transport W} {Obj : Type} {Md : Models Obj}.
Variable self : Http.AuthModel.

Definition get (k : kind) (id : string) : M W Obj :=
  match k with
  | Users => ArtifactoryUser.get self id
  | Groups => ArtifactoryGroup.get self id
  | Permissions => ArtifactoryPermission.get self id
  | Repositories => ArtifactoryRepository.get_repo self id
  end.

Definition create (r : new_record) : M W Obj :=
  match r with
  | NewUserRecord user => ArtifactoryUser.create self user
  | NewGroupRecord group => ArtifactoryGroup.create self group
  | NewPermissionRecord permission => ArtifactoryPermission.create self permission
  | NewRepositoryRecord repo => ArtifactoryRepository.create_repo self repo
  end.

Definition update (r : record) : M W Obj :=
  match r with
  | UserRecord user => ArtifactoryUser.update self user
  | GroupRecord group => ArtifactoryGroup.update self group
  | PermissionRecord permission => ArtifactoryPermission.update self permission
  | RepositoryRecord repo => ArtifactoryRepository.update_repo self repo
  end.

(** [ArtifactoryRepository] has no [delete]. *)
Definition delete (k : kind) : option (string -> M W unit) :=
  match k with
  | Users => Some (ArtifactoryUser.delete self)
  | Groups => Some (ArtifactoryGroup.delete self)
  | Permissions => Some (ArtifactoryPermission.delete self)
  | Repositories => None
  end.

(** The requests the methods of a kind send for a given id. *)
Definition read_request (k : kind) (id : string) : Http.Request :=
  http_call self Http.GET ("api/" ++ uri k ++ "/" ++ id)
    match k with
    | Groups =>
        {| Http.params := [("includeUsers", Json.JBool true)];
           Http.body := Http.NoBody; Http.stream := false |}
    | _ => Http.no_kwargs
    end.

Definition write_request (method : Http.method) (k : kind) (id : string)
    (d : Model.fields) : Http.Request :=
  http_call self method ("api/" ++ uri k ++ "/" ++ id) (json_kw d).

Definition delete_request (k : kind) (id : string) : Http.Request :=
  http_call self Http.DELETE ("api/" ++ uri k ++ "/" ++ id) Http.no_kwargs.

(** What [get] of a kind makes of the response to its request. *)
Definition model_of (k : kind) : model_class :=
  match k with
  | Users => UserResponse
  | Groups => GroupModel
  | Permissions => PermissionModel
  | Repositories => AnyRepositoryResponse
  end.

Definition read_outcome (k : kind) (id : string) (response : Http.Response)
  : result Obj :=
  if Http.is_error response then
    if (Z.eqb (Http.status_code response) 404
        || Z.eqb (Http.status_code response) 400)%bool
    then Raise (not_found k id)
    else Raise (ArtifactoryException (HTTPError response))
  else parsed (model_of k) response.

(** A request is a POST to the endpoint of a resource. *)
Definition posts_to (k : kind) (id : string) (q : Http.Request) : Prop :=
  Http.req_method q = Http.POST
  /\ Http.req_url q = Http.req_url (read_request k id).

(** The requests a complete [ArtifactoryUser.update] sends, in order. *)
Definition user_update_requests (user : Model.User) : list Http.Request :=
  [ read_request Users (Model.user_name user);
    write_request Http.POST Users (Model.user_name user) (Model.user_dict user);
    write_request Http.POST Users (Model.user_name user)
      (Model.exclude ["lastLoggedIn"; "realm"] (Model.user_dict user));
    read_request Users (Model.user_name user) ].

End WithTransport.
End Crud.

(* ================================================================= *)
(** ** The eight artifact operations side by side *)

Module ArtifactCall.

Inductive call : Type :=
| Info (artifact_path : string)
| Deploy (local_file_location artifact_path : string)
| Download (artifact_path : string) (local_directory_path : option string)
| Properties (artifact_path : string) (properties : option (list string))
| Stats (artifact_path : string)
| Copy (artifact_current_path artifact_new_path : string) (dryrun : bool)
| Move (artifact_current_path artifact_new_path : string) (dryrun : bool)
| Delete (artifact_path : string).

Inductive returned (Obj : Type) : Type :=
| Object (o : Obj)
| FileName (path : string)
| Nothing.
Arguments FileName {Obj} path.
Arguments Nothing {Obj}.

(** The same call on paths without their leading slashes. *)
Definition normalize (c : call) : call :=
  let strip := Py.lstrip "/" in
  match c with
  | Info p => Info (strip p)
  | Deploy f p => Deploy f (strip p)
  | Download p d => Download (strip p) d
  | Properties p l => Properties (strip p) l
  | Stats p => Stats (strip p)
  | Copy p p' d => Copy (strip p) (strip p') d
  | Move p p' d => Move (strip p) (strip p') d
  | Delete p => Delete (strip p)
  end.

(** Method and route of the first request of a call, from the paths with
    every leading slash stripped. *)
Definition first_method (c : call) : Http.method :=
  match c with
  | Info _ | Download _ _ | Properties _ _ | Stats _ => Http.GET
  | Deploy _ _ => Http.PUT
  | Copy _ _ _ | Move _ _ _ => Http.POST
  | Delete _ => Http.DELETE
  end.

Definition first_route (c : call) : string :=
  let strip := Py.lstrip "/" in
  match c with
  | Info p | Properties p _ => "api/storage/" ++ strip p
  | Deploy _ p | Download p _ | Delete p => strip p
  | Stats p => "api/storage/" ++ strip p ++ "?stats"
  | Copy p p' d =>
      "api/copy/" ++ strip p ++ "?to=" ++ strip p' ++ "&dry="
        ++ (if d then "1" else "0")
  | Move p p' d =>
      "api/move/" ++ strip p ++ "?to=" ++ strip p' ++ "&dry="
        ++ (if d then "1" else "0")
  end.

Section WithTransport.
Context {W : Type} {T : Http.Transport W} {Dk : Disk W} {Obj : Type}
        {Md : Models Obj}.
Variable self : Http.AuthModel.

(** A call gets as far as its first request unless [deploy] cannot open
    its local file or [download] cannot make its local directory. *)
Definition opens (c : call) (s : state W) : bool :=
  match c with
  | Deploy f _ =>
      match lookup f (files s) with Some _ => true | None => false end
  | Download _ (Some (String _ _ as d)) =>
      match fst (mkdir d s) with Ok _ => true | Raise _ => false end
  | _ => true
  end.

(** The request of [info]. *)
Definition info_request (artifact_path : string) : Http.Request :=
  http_call self Http.GET ("api/storage/" ++ Py.lstrip "/" artifact_path)
    Http.no_kwargs.

Definition run (c : call) : M W (returned Obj) :=
  match c with
  | Info p => o <- ArtifactoryArtifact.info self p ;; ret (Object o)
  | Deploy f p => o <- ArtifactoryArtifact.deploy self f p ;; ret (Object o)
  | Download p d => f <- ArtifactoryArtifact.download self p d ;; ret (FileName f)
  | Properties p l =>
      o <- ArtifactoryArtifact.properties self p l ;; ret (Object o)
  | Stats p => o <- ArtifactoryArtifact.stats self p ;; ret (Object o)
  | Copy p p' d => o <- ArtifactoryArtifact.copy self p p' d ;; ret (Object o)
  | Move p p' d => o <- ArtifactoryArtifact.move self p p' d ;; ret (Object o)
  | Delete p => ArtifactoryArtifact.delete self p ;;; ret Nothing
  end.

End WithTransport.
End ArtifactCall.

(** The outcome of a run and the requests it sent. *)
Definition outcome {W A : Type} (r : result A * state W) : result A := fst r.
Definition trace {W A : Type} (r : result A * state W) : list Http.Request :=
  sent (snd r).

(** Method and URL of the first request of a trace. *)
Definition heads (l : list Http.Request) : option (Http.method * string) :=
  hd_error (map (fun q => (Http.req_method q, Http.req_url q)) l).

(* ================================================================= *)
(** ** Inputs to run the definitions on *)

Module Examples.

Import AqlQuery.

(** [{domain: items, find: {name: a}, limit: 5}]. *)
Definition items_named_a : Aql :=
  {| domain := "items";
     find := Some [("name", Json.JStr "a")];
     include := None;
     sort := None;
     offset := None;
     limit := Some 5%Z |}.

(** A query whose offset is set, to 0. *)
Definition offset_zero : Aql :=
  {| domain := "items"; find := None; include := None; sort := None;
     offset := Some 0%Z; limit := None |}.

(** A query with offset 20 and limit 5. *)
Definition second_page : Aql :=
  {| domain := "items"; find := None; include := None; sort := None;
     offset := Some 20%Z; limit := Some 5%Z |}.

(** A query sorted on [created], with a second sort key behind it. *)
Definition created : SortKey := {| value := "created" |}.

Definition sorted_twice : Aql :=
  {| domain := "items"; find := None; include := None;
     sort := Some [(created, ["desc"]); ({| value := "name" |}, ["asc"])];
     offset := None; limit := None |}.

(** One record of each kind. *)
Definition bob_fields : Model.fields :=
  [("name", Json.JStr "bob"); ("email", Json.JStr "bob@example.org");
   ("lastLoggedIn", Json.JStr "2020-01-01"); ("realm", Json.JStr "internal")].

Definition bob : Model.User :=
  {| Model.user_name := "bob"; Model.user_dict := bob_fields |}.

Definition new_bob : Model.NewUser :=
  {| Model.new_user_name := "bob"; Model.new_user_password := "hunter2";
     Model.new_user_dict := bob_fields |}.

Definition readers : Model.Permission :=
  {| Model.permission_name := "readers";
     Model.permission_dict := [("name", Json.JStr "readers")] |}.

(** Servers: an empty one, and one that holds the user [bob]. *)
Definition empty : Demo.store := [].

Definition with_bob : Demo.store :=
  [("http://localhost/artifactory/api/security/users/bob",
    Json.JDict bob_fields)].

End Examples.

(* ================================================================= *)
(** ** The remaining methods *)

(** The methods below raise exceptions of further classes.  [exception]
    adds them to [exn]; [TypeError], [AttributeError] and [KeyError] are
    what Python raises when [response.json()] is not of the shape a method
    takes it to have. *)
Module Raised.

Inductive exception : Type :=
| Earlier (e : exn)
| AqlException
| InvalidTokenData (arg : Json.value)
| ValueError (arg : string)
| TypeError
| AttributeError
| KeyError (key : string).

Inductive ended (A : Type) : Type :=
| Returns (a : A)
| Raises (e : exception).
Arguments Raises {A} e.

Definition MX (W A : Type) : Type := state W -> ended A * state W.

Definition ret {W A : Type} (a : A) : MX W A := fun s => (Returns a, s).

Definition raise {W A : Type} (e : exception) : MX W A := fun s => (Raises e, s).

Definition bind {W A B : Type} (m : MX W A) (k : A -> MX W B) : MX W B :=
  fun s =>
    match m s with
    | (Returns a, s') => k a s'
    | (Raises e, s') => (Raises e, s')
    end.

(** A computation that raises exceptions of the earlier classes only. *)
Definition lift {W A : Type} (m : M W A) : MX W A :=
  fun s =>
    match m s with
    | (Ok a, s') => (Returns a, s')
    | (Raise e, s') => (Raises (Earlier e), s')
    end.

(** A value computed without the state. *)
Definition pure {W A : Type} (r : ended A) : MX W A := fun s => (r, s).

Definition try_except {W A : Type} (body : MX W A)
    (handler : exception -> option (MX W A)) : MX W A :=
  fun s =>
    match body s with
    | (Returns a, s') => (Returns a, s')
    | (Raises e, s') =>
        match handler e with
        | Some h => h s'
        | None => (Raises e, s')
        end
    end.

(** [[f(x) for x in xs]]: the elements in order, up to the first that
    raises. *)
Fixpoint comprehension {A B : Type} (f : A -> ended B) (xs : list A)
  : ended (list B) :=
  match xs with
  | [] => Returns []
  | x :: xs' =>
      match f x with
      | Raises e => Raises e
      | Returns b =>
          match comprehension f xs' with
          | Raises e => Raises e
          | Returns bs => Returns (b :: bs)
          end
      end
  end.

(** [d[k]] and [d.get(k)] on the fields of a JSON object. *)
Fixpoint item (d : list (string * Json.value)) (k : string) : option Json.value :=
  match d with
  | (k', v) :: d' => if String.eqb k' k then Some v else item d' k
  | [] => None
  end.

(** [response.json()]. *)
Definition json_of (response : Http.Response) : ended Json.value :=
  match Http.json response with
  | Some j => Returns j
  | None => Raises (Earlier JSONDecodeError)
  end.

(** [for x in j]: a list gives its elements, an object its keys, a string
    its characters; nothing else can be iterated. *)
Definition iterate (j : Json.value) : ended (list Json.value) :=
  match j with
  | Json.JList l => Returns l
  | Json.JDict d => Returns (map (fun kv => Json.JStr (fst kv)) d)
  | Json.JStr s =>
      Returns (map (fun a => Json.JStr (String a EmptyString))
                 (list_ascii_of_string s))
  | _ => Raises TypeError
  end.

(** [j[k]] for a string [k]: only an object can be indexed by a string. *)
Definition subscript (j : Json.value) (k : string) : ended Json.value :=
  match j with
  | Json.JDict d =>
      match item d k with
      | Some v => Returns v
      | None => Raises (KeyError k)
      end
  | _ => Raises TypeError
  end.

(** [j.get(k, default)]: only an object has a [get]. *)
Definition get_or (j : Json.value) (k : string) (default : Json.value)
  : ended Json.value :=
  match j with
  | Json.JDict d =>
      match item d k with
      | Some v => Returns v
      | None => Returns default
      end
  | _ => Raises AttributeError
  end.

(** The call of a model class on the unpacked [j]: only a mapping can be
    unpacked; its validation yields an object or fails. *)
Definition construct {Obj : Type} (validate : Json.value -> option Obj)
    (j : Json.value) : ended Obj :=
  match j with
  | Json.JDict _ =>
      match validate j with
      | Some o => Returns o
      | None => Raises (Earlier ValidationError)
      end
  | _ => Raises TypeError
  end.

(** [o] is the object built from the element [j] of an answer. *)
Definition built {Obj : Type} (validate : Json.value -> option Obj)
    (j : Json.value) (o : Obj) : Prop :=
  (exists d, j = Json.JDict d) /\ validate j = Some o.

End Raised.

Declare Scope pyx_scope.
Delimit Scope pyx_scope with pyx.
Notation "x <- m ;; k" := (Raised.bind m (fun x => k))
  (at level 61, m at next level, right associativity) : pyx_scope.

(** The model classes of the remaining methods; validation against them is
    external, as for the others. *)
Inductive summary_class : Type :=
| SimpleUser
| SimplePermission
| AccessTokenModel.

Class Summaries (Obj : Type) : Type :=
  parse_summary : summary_class -> Json.value -> option Obj.

(* ================================================================= *)
(** ** [list] and [unlock] *)

Module Listing.
Section WithTransport.
Context {W : Type} {T : Http.Transport W} {Obj : Type} {Md : Models Obj}
        {Sm : Summaries Obj}.
Variable self : Http.AuthModel.
Local Open Scope pyx_scope.

(** The body the three [list] methods share: the collection is read and one
    object is built per element of the answer. *)
Definition collection (route : string) (validate : Json.value -> option Obj)
  : Raised.MX W (list Obj) :=
  response <- Raised.lift (_get self route Http.no_kwargs) ;;
  j <- Raised.pure (Raised.json_of response) ;;
  items <- Raised.pure (Raised.iterate j) ;;
  Raised.pure (Raised.comprehension (Raised.construct validate) items).

(** [ArtifactoryUser.list]. *)
Definition user_list : Raised.MX W (list Obj) :=
  collection ("api/" ++ ArtifactoryUser._uri) (parse_summary SimpleUser).

(** [ArtifactoryGroup.list]. *)
Definition group_list : Raised.MX W (list Obj) :=
  collection ("api/" ++ ArtifactoryGroup._uri) (parse_obj_as GroupModel).

(** [ArtifactoryPermission.list]. *)
Definition permission_list : Raised.MX W (list Obj) :=
  collection ("api/" ++ ArtifactoryPermission._uri)
    (parse_summary SimplePermission).

(** The three side by side. *)
Inductive listed : Type := ListedUsers | ListedGroups | ListedPermissions.

Definition list_of (l : listed) : Raised.MX W (list Obj) :=
  match l with
  | ListedUsers => user_list
  | ListedGroups => group_list
  | ListedPermissions => permission_list
  end.

Definition validate_of (l : listed) : Json.value -> option Obj :=
  match l with
  | ListedUsers => parse_summary SimpleUser
  | ListedGroups => parse_obj_as GroupModel
  | ListedPermissions => parse_summary SimplePermission
  end.

Definition list_request (l : listed) : Http.Request :=
  http_call self Http.GET
    match l with
    | ListedUsers => "api/security/users"
    | ListedGroups => "api/security/groups"
    | ListedPermissions => "api/security/permissions"
    end Http.no_kwargs.

(** [ArtifactoryUser.unlock]. *)
Definition unlock (name : string) : M W unit :=
  Run.bind (_post self ("api/security/unlockUsers/" ++ name) Http.no_kwargs)
    (fun _ => Run.ret tt).

End WithTransport.
End Listing.

(* ================================================================= *)
(** ** [ArtifactorySecurity.create_access_token] *)

Module AccessToken.

(** What a caller passes as [groups]: nothing, a list of names, or, against
    the annotation, one name as a string.  Values of other types are not
    covered: what is proved of [create_access_token] is proved for these
    three shapes. *)
Inductive groups_arg : Type :=
| NoGroups
| GroupList (names : list string)
| GroupText (name : string).

Definition truthy_groups (groups : groups_arg) : bool :=
  match groups with
  | NoGroups => false
  | GroupList [] => false
  | GroupList (_ :: _) => true
  | GroupText s => Py.truthy_str s
  end.

Definition scope_of (names : list string) : string :=
  "member-of-groups:" ++ Py.dquote ++ String.concat ", " names ++ Py.dquote.

Section WithTransport.
Context {W : Type} {T : Http.Transport W} {Obj : Type} {Sm : Summaries Obj}.
Variable self : Http.AuthModel.
Local Open Scope pyx_scope.

(** The form is held with the text [str(v)] of each value, which is what
    the form encoding sends. *)
Definition create_access_token (user_name : string) (expires_in : Z)
    (refreshable : bool) (groups : groups_arg) : Raised.MX W Obj :=
  let payload :=
    [("username", Some user_name);
     ("expires_in", Some (Py.str_of_int expires_in));
     ("refreshable", Some (if refreshable then "True" else "False"))] in
  payload <-
    (if truthy_groups groups then
       match groups with
       | GroupList names =>
           let scope := scope_of names in
           Raised.ret (payload ++ [("scope", Some scope)])%list
       | GroupText s => Raised.raise (Raised.ValueError s)
       | NoGroups => Raised.ret payload
       end
     else Raised.ret payload) ;;
  response <- Raised.lift
    (_generic_http_method_request self Http.POST
       ("api/" ++ ArtifactorySecurity._uri ++ "/token") false
       {| Http.params := []; Http.body := Http.FormBody payload;
          Http.stream := false |}) ;;
  if Http.ok response then
    j <- Raised.pure (Raised.json_of response) ;;
    Raised.pure (Raised.construct (parse_summary AccessTokenModel) j)
  else
    j <- Raised.pure (Raised.json_of response) ;;
    description <- Raised.pure
      (Raised.get_or j "error_description" (Json.JStr "Unknown error")) ;;
    Raised.raise (Raised.InvalidTokenData description).

(** The form [create_access_token] sends: the three fixed fields, and a
    scope behind them for a list of groups that is not empty. *)
Definition token_form (user_name : string) (expires_in : Z) (refreshable : bool)
    (groups : groups_arg) : list (string * option string) :=
  ([("username", Some user_name);
    ("expires_in", Some (Py.str_of_int expires_in));
    ("refreshable", Some (if refreshable then "True" else "False"))]
   ++ match groups with
      | GroupList (n :: ns) => [("scope", Some (scope_of (n :: ns)))]
      | _ => []
      end)%list.

(** The request [create_access_token] sends for a form. *)
Definition token_request (form : list (string * option string)) : Http.Request :=
  http_call self Http.POST "api/security/token"
    {| Http.params := []; Http.body := Http.FormBody form;
       Http.stream := false |}.

End WithTransport.
End AccessToken.

(* ================================================================= *)
(** ** [class ArtifactoryAql] *)

Module ArtifactoryAql.
Section WithTransport.
Context {W : Type} {T : Http.Transport W}.
Variable self : Http.AuthModel.
Local Open Scope pyx_scope.

Definition _uri : string := "search/aql".

(** [AqlException] is raised with one fixed message, which is left out. *)
Definition query (aql_object : AqlQuery.Aql) : Raised.MX W Json.value :=
  let aql_query := AqlQuery.create_aql_query aql_object in
  Raised.try_except
    (response <- Raised.lift
       (_post self ("api/" ++ _uri)
          {| Http.params := []; Http.body := Http.TextBody aql_query;
             Http.stream := false |}) ;;
     j <- Raised.pure (Raised.json_of response) ;;
     Raised.pure (Raised.subscript j "results"))
    (fun e =>
       match e with
       | Raised.Earlier (HTTPError _) => Some (Raised.raise Raised.AqlException)
       | _ => None
       end).

(** The request [query] sends. *)
Definition query_request (aql_object : AqlQuery.Aql) : Http.Request :=
  http_call self Http.POST "api/search/aql"
    {| Http.params := [];
       Http.body := Http.TextBody (AqlQuery.create_aql_query aql_object);
       Http.stream := false |}.

End WithTransport.
End ArtifactoryAql.

(* ================================================================= *)
(** ** Vocabulary for the properties of the remaining code *)

Module More.

(** The mapping [create] sends: [user.dict()] with the password in the
    clear for a user, [.dict()] for the other kinds. *)
Definition create_body (r : Crud.new_record) : Model.fields :=
  match r with
  | Crud.NewUserRecord user =>
      Model.setitem (Model.new_user_dict user) "password"
        (Json.JStr (Model.new_user_password user))
  | Crud.NewGroupRecord group => Model.group_dict group
  | Crud.NewPermissionRecord permission => Model.permission_dict permission
  | Crud.NewRepositoryRecord repo => Model.repo_dict repo
  end.

(** The method of the write of [update], per kind. *)
Definition update_method (k : Crud.kind) : Http.method :=
  match k with
  | Crud.Permissions => Http.PUT
  | _ => Http.POST
  end.


(** A query object with every optional clause unset or empty. *)
Definition bare (q : AqlQuery.Aql) : Prop :=
  (AqlQuery.find q = None \/ AqlQuery.find q = Some [])
  /\ (AqlQuery.include q = None \/ AqlQuery.include q = Some [])
  /\ (AqlQuery.sort q = None \/ AqlQuery.sort q = Some [])
  /\ (AqlQuery.offset q = None \/ AqlQuery.offset q = Some 0%Z)
  /\ (AqlQuery.limit q = None \/ AqlQuery.limit q = Some 0%Z).

(** Every JSON object is accepted as an object of the remaining classes. *)
#[global] Instance any_summary : Summaries Json.value :=
  fun _ j => match j with Json.JDict _ => Some j | _ => None end.

(** Inputs to run the remaining methods on. *)
Definition alice : Model.NewUser :=
  {| Model.new_user_name := "alice"; Model.new_user_password := "s3cret";
     Model.new_user_dict :=
       [("name", Json.JStr "alice"); ("password", Json.JStr "hidden");
        ("admin", Json.JBool false)] |}.

Definition bare_items : AqlQuery.Aql :=
  {| AqlQuery.domain := "items"; AqlQuery.find := Some [];
     AqlQuery.include := None; AqlQuery.sort := None;
     AqlQuery.offset := Some 0%Z; AqlQuery.limit := None |}.

Definition with_brackets : AqlQuery.Aql :=
  {| AqlQuery.domain := "items"; AqlQuery.find := None;
     AqlQuery.include := Some ["name"; "property[0]"]; AqlQuery.sort := None;
     AqlQuery.offset := None; AqlQuery.limit := None |}.

End More.

(* ================================================================= *)
(** * Properties *)

(* ================================================================= *)
(** ** Strings *)

Lemma append_assoc (a b c : string) : (a ++ b) ++ c = a ++ (b ++ c).
Proof. induction a as [|x a IH]; simpl; [reflexivity | now rewrite IH]. Qed.

Lemma append_empty_r (a : string) : a ++ "" = a.
Proof. induction a as [|x a IH]; simpl; [reflexivity | now rewrite IH]. Qed.

Lemma prefix_true_iff (a s : string) :
  String.prefix a s = true <-> exists post, s = a ++ post.
Proof.
  revert s; induction a as [|x a IH]; intros s; simpl.
  - destruct s; (split; [intros _; eexists; reflexivity | reflexivity]).
  - destruct s as [|y s]; simpl.
    + split; [discriminate | intros [post H]; discriminate].
    + destruct (ascii_dec x y) as [->|Hne].
      * rewrite IH; split; intros [post H]; exists post; congruence.
      * split; [discriminate | intros [post H]; congruence].
Qed.

Lemma contains_true_iff (needle s : string) :
  Py.contains needle s = true <-> Py.Substring needle s.
Proof.
  unfold Py.Substring.
  induction s as [|y s IH]; cbn [Py.contains].
  - rewrite orb_false_r, prefix_true_iff. split.
    + intros [post H]. now exists "", post.
    + intros (pre & post & H). destruct pre; simpl in H; [now exists post | discriminate].
  - rewrite orb_true_iff, IH, prefix_true_iff. split.
    + intros [[post H] | (pre & post & H)].
      * exists "", post. exact H.
      * exists (String y pre), post. simpl. now rewrite H.
    + intros (pre & post & H). destruct pre as [|x pre]; simpl in H.
      * left. now exists post.
      * right. exists pre, post. congruence.
Qed.

Lemma lstrip_idem (c : ascii) (p : string) :
  Py.lstrip c (Py.lstrip c p) = Py.lstrip c p.
Proof.
  induction p as [|a p IH]; [reflexivity|]. simpl.
  destruct (Ascii.eqb a c) eqn:E; [exact IH|]. simpl. now rewrite E.
Qed.

Lemma lstrip_strips_all (c : ascii) (p : string) :
  (exists n, p = Py.repeat_char c n ++ Py.lstrip c p)
  /\ forall t, Py.lstrip c p <> String c t.
Proof.
  induction p as [|a p [[n IH1] IH2]].
  - split; [now exists 0 | discriminate].
  - simpl. destruct (Ascii.eqb_spec a c) as [-> | Hne].
    + split; [exists (S n); simpl; now rewrite <- IH1 | exact IH2].
    + split; [now exists 0 | congruence].
Qed.

(* ================================================================= *)
(** ** The query compiler *)

Section QueryCompiler.
Import AqlQuery Examples.


Lemma getitem_first (V : Type) (k : SortKey) (v : V) (d : list (SortKey * V)) :
  getitem ((k, v) :: d) k = Some v.
Proof. simpl. unfold SortKey_eqb. now rewrite String.eqb_refl. Qed.

Lemma sort_clause_first (q : Aql) k v rest :
  sort q = Some ((k, v) :: rest) -> sort_clause q = sort_fragment k v.
Proof.
  intros H. unfold sort_clause. rewrite H, getitem_first. reflexivity.
Qed.

(** C5.  The compiler is a function of the query object alone (it reads no
    state, so equal queries compile to equal strings), and the query with
    domain [items], find mapping [{name: a}] and limit 5, the other clauses
    unset, compiles to exactly [items.find({"name": "a"}).limit(5)]: the
    output holds no [.include], [.sort] or [.offset] fragment. *)
Theorem compile_items_named_a :
  create_aql_query items_named_a = Py.lit "items.find({'name': 'a'}).limit(5)"
  /\ Py.contains ".include" (create_aql_query items_named_a) = false
  /\ Py.contains ".sort" (create_aql_query items_named_a) = false
  /\ Py.contains ".offset" (create_aql_query items_named_a) = false.
Proof. repeat split; vm_compute; reflexivity. Qed.

(** C6, as stated, fails: with [offset] set to 0 the guard
    [if aql_object.offset] is false and no [.offset(0)] is emitted. *)
Lemma offset_zero_has_no_fragment :
  offset offset_zero = Some 0%Z
  /\ create_aql_query offset_zero = "items.find()"
  /\ ~ Py.Substring (".offset(" ++ Py.str_of_int 0 ++ ")")
        (create_aql_query offset_zero).
Proof.
  split; [reflexivity | split; [reflexivity |]].
  rewrite <- contains_true_iff. vm_compute. discriminate.
Qed.

Lemma offset_clause_pos (q : Aql) (n : Z) :
  offset q = Some n -> (0 < n)%Z ->
  offset_clause q = ".offset(" ++ Py.str_of_int n ++ ")".
Proof.
  intros H Hn. unfold offset_clause. rewrite H.
  destruct (Z.eqb_spec n 0); [lia | reflexivity].
Qed.

Lemma limit_clause_pos (q : Aql) (n : Z) :
  limit q = Some n -> (0 < n)%Z ->
  limit_clause q = ".limit(" ++ Py.str_of_int n ++ ")".
Proof.
  intros H Hn. unfold limit_clause. rewrite H.
  destruct (Z.eqb_spec n 0); [lia | reflexivity].
Qed.

(** C6, amended.  An offset set to a positive integer [n] puts
    [.offset(n)] in the compiled query and a limit set to a positive [n]
    puts [.limit(n)] in it; a value of 0 is treated like an unset one and
    contributes no fragment. *)
Theorem positive_offset_and_limit_are_compiled (q : Aql) (n : Z) (Hn : (0 < n)%Z) :
  (offset q = Some n ->
   Py.Substring (".offset(" ++ Py.str_of_int n ++ ")") (create_aql_query q))
  /\ (limit q = Some n ->
      Py.Substring (".limit(" ++ Py.str_of_int n ++ ")") (create_aql_query q))
  /\ create_aql_query (with_offset q (Some 0%Z)) = create_aql_query (with_offset q None)
  /\ create_aql_query (with_limit q (Some 0%Z)) = create_aql_query (with_limit q None).
Proof.
  repeat split; try reflexivity.
  - intros H. unfold create_aql_query. cbv zeta.
    rewrite (offset_clause_pos q H Hn).
    exists (((domain q ++ ".find") ++ find_clause q) ++ include_clause q ++ sort_clause q), (limit_clause q).
    rewrite !append_assoc. reflexivity.
  - intros H. unfold create_aql_query. cbv zeta.
    rewrite (limit_clause_pos q H Hn).
    eexists; exists ""; rewrite append_empty_r; reflexivity.
Qed.

(** The amended C6 at offset 20 and limit 5. *)
Lemma positive_offset_and_limit_witness :
  Py.Substring ".offset(20)" (create_aql_query second_page)
  /\ Py.Substring ".limit(5)" (create_aql_query second_page).
Proof.
  split.
  - exact (proj1 (@positive_offset_and_limit_are_compiled second_page 20 eq_refl) eq_refl).
  - exact (proj1 (proj2 (@positive_offset_and_limit_are_compiled second_page 5 eq_refl)) eq_refl).
Defined.

(** C7.  With a non-empty sort mapping whose first item is [(k, v)], the
    compiled query is the text before the sort clause, then the single
    fragment [.sort({"<k>": <json(v)>})], then the offset and limit
    clauses; without the mapping that fragment alone is gone; the items
    behind the first change nothing; and for [{created: [desc]}] the
    fragment is exactly [.sort({"created": ["desc"]})]. *)
Theorem sort_honours_first_key_only (q : Aql) (k : SortKey) (v : list string)
    (rest : list (SortKey * list string)) (H : sort q = Some ((k, v) :: rest)) :
  create_aql_query q =
    (domain q ++ ".find" ++ find_clause q ++ include_clause q)
      ++ sort_fragment k v ++ (offset_clause q ++ limit_clause q)
  /\ create_aql_query (with_sort q None) =
       (domain q ++ ".find" ++ find_clause q ++ include_clause q)
         ++ (offset_clause q ++ limit_clause q)
  /\ create_aql_query q = create_aql_query (with_sort q (Some [(k, v)]))
  /\ sort_fragment created ["desc"] = Py.lit ".sort({'created': ['desc']})".
Proof.
  assert (E : create_aql_query q =
    (domain q ++ ".find" ++ find_clause q ++ include_clause q)
      ++ sort_fragment k v ++ (offset_clause q ++ limit_clause q)).
  { unfold create_aql_query. cbv zeta. rewrite (sort_clause_first q H).
    rewrite !append_assoc. reflexivity. }
  split; [exact E | split; [| split]].
  - unfold create_aql_query. cbv zeta. rewrite !append_assoc. reflexivity.
  - rewrite E. unfold create_aql_query. cbv zeta.
    rewrite (@sort_clause_first (with_sort q (Some [(k, v)])) k v [] eq_refl).
    rewrite !append_assoc. reflexivity.
  - vm_compute. reflexivity.
Qed.

(** C7 on a mapping with two keys: only [created] is compiled. *)
Lemma sort_honours_first_key_only_witness :
  create_aql_query sorted_twice = Py.lit "items.find().sort({'created': ['desc']})".
Proof.
  rewrite (proj1 (@sort_honours_first_key_only sorted_twice created ["desc"] _ eq_refl)).
  vm_compute. reflexivity.
Defined.

End QueryCompiler.

(* ================================================================= *)
(** ** The resource clients *)

Import Examples.

Section Runs.
Context {W : Type} {T : Http.Transport W} {Obj : Type} {Md : Models Obj}
        {Dk : Disk W}.
Variable self : Http.AuthModel.

Lemma http_run (method : Http.method) (route : string) (rfs : bool)
    (kw : Http.kwargs) (s : state W) :
  _generic_http_method_request self method route rfs kw s =
  (if (rfs && Http.is_error (reply (http_call self method route kw) s))%bool
   then Raise (HTTPError (reply (http_call self method route kw) s))
   else Ok (reply (http_call self method route kw) s),
   after (http_call self method route kw) s).
Proof.
  unfold _generic_http_method_request, bind, request.
  destruct (rfs && Http.is_error _)%bool; reflexivity.
Qed.

Lemma get_run k id (s : state W) :
  Crud.get self k id s =
  (Crud.read_outcome k id (reply (Crud.read_request self k id) s),
   after (Crud.read_request self k id) s).
Proof.
  destruct k;
    cbv [Crud.get ArtifactoryUser.get ArtifactoryGroup.get
         ArtifactoryPermission.get ArtifactoryRepository.get_repo
         try_except bind _get];
    rewrite http_run;
    cbv [andb Crud.read_outcome Crud.read_request Crud.uri Crud.model_of];
    match goal with |- context [Http.is_error ?r] => destruct (Http.is_error r) end;
    cbv [except_HTTPError_404_400 raise Crud.not_found];
    try match goal with
        | |- context [(?a || ?b)%bool] => destruct (a || b)%bool; reflexivity
        end;
    cbv [parse parsed];
    match goal with |- context [Http.json ?r] => destruct (Http.json r) as [j|] end;
    try reflexivity;
    match goal with |- context [parse_obj_as ?c ?j] => destruct (parse_obj_as c j) end;
    reflexivity.
Qed.

(** The write of a method, as [_put], [_post] or [_delete] runs it. *)
Lemma write_run (method : Http.method) route kw (s : state W) :
  _generic_http_method_request self method route true kw s =
  (if Http.is_error (reply (http_call self method route kw) s)
   then Raise (HTTPError (reply (http_call self method route kw) s))
   else Ok (reply (http_call self method route kw) s),
   after (http_call self method route kw) s).
Proof. apply http_run. Qed.

Lemma sent_after (r : Http.Request) (s : state W) :
  sent (after r s) = (sent s ++ [r])%list.
Proof. reflexivity. Qed.

Lemma user_get_run n (s : state W) :
  ArtifactoryUser.get self n s =
  (Crud.read_outcome Crud.Users n (reply (Crud.read_request self Crud.Users n) s),
   after (Crud.read_request self Crud.Users n) s).
Proof. exact (get_run Crud.Users n s). Qed.

Lemma group_get_run n (s : state W) :
  ArtifactoryGroup.get self n s =
  (Crud.read_outcome Crud.Groups n (reply (Crud.read_request self Crud.Groups n) s),
   after (Crud.read_request self Crud.Groups n) s).
Proof. exact (get_run Crud.Groups n s). Qed.

Lemma permission_get_run n (s : state W) :
  ArtifactoryPermission.get self n s =
  (Crud.read_outcome Crud.Permissions n
     (reply (Crud.read_request self Crud.Permissions n) s),
   after (Crud.read_request self Crud.Permissions n) s).
Proof. exact (get_run Crud.Permissions n s). Qed.

Lemma repo_get_run n (s : state W) :
  ArtifactoryRepository.get_repo self n s =
  (Crud.read_outcome Crud.Repositories n
     (reply (Crud.read_request self Crud.Repositories n) s),
   after (Crud.read_request self Crud.Repositories n) s).
Proof. exact (get_run Crud.Repositories n s). Qed.

Ltac reads :=
  rewrite ?user_get_run, ?group_get_run, ?permission_get_run, ?repo_get_run.

Lemma create_run_exists (r : Crud.new_record) (s : state W) (o : Obj) :
  outcome (Crud.get self (Crud.kind_of_new r) (Crud.id_of_new r) s) = Ok o ->
  Crud.create self r s =
  (Raise (Crud.already_exists (Crud.kind_of_new r) (Crud.id_of_new r)),
   after (Crud.read_request self (Crud.kind_of_new r) (Crud.id_of_new r)) s).
Proof.
  intros H. rewrite get_run in H. cbv [outcome fst] in H.
  destruct r; cbn [Crud.kind_of_new Crud.id_of_new] in *;
    cbv [Crud.create ArtifactoryUser.create ArtifactoryGroup.create
         ArtifactoryPermission.create ArtifactoryRepository.create_repo
         try_except bind];
    reads; rewrite H; reflexivity.
Qed.

(** C1.  For each of the four kinds: when the existence check [get] of the
    record's id succeeds, [create] raises the kind's AlreadyExists
    exception, and the only request it has sent is the read of that check:
    no PUT, no write of any method. *)
Theorem create_of_existing_is_refused (r : Crud.new_record) (w : W)
    (fs : list (string * string)) (o : Obj)
    (Hexists : outcome (Crud.get self (Crud.kind_of_new r) (Crud.id_of_new r)
                          (start w fs)) = Ok o) :
  outcome (Crud.create self r (start w fs))
    = Raise (Crud.already_exists (Crud.kind_of_new r) (Crud.id_of_new r))
  /\ trace (Crud.create self r (start w fs))
     = [Crud.read_request self (Crud.kind_of_new r) (Crud.id_of_new r)]
  /\ existsb Crud.is_write (trace (Crud.create self r (start w fs))) = false.
Proof.
  rewrite (create_run_exists r (start w fs) Hexists).
  cbv [outcome trace fst snd]. rewrite sent_after.
  split; [reflexivity | split; [reflexivity | destruct r; reflexivity]].
Qed.


Lemma delete_run_absent k del id (s : state W) e :
  Crud.delete self k = Some del ->
  outcome (Crud.get self k id s) = Raise e ->
  del id s = (Raise e, after (Crud.read_request self k id) s).
Proof.
  intros Hd H. rewrite get_run in H. cbv [outcome fst] in H.
  destruct k; inversion Hd; subst del;
    cbv [ArtifactoryUser.delete ArtifactoryGroup.delete
         ArtifactoryPermission.delete bind];
    reads; rewrite H; reflexivity.
Qed.

(** C2.  For Users, Groups and Permissions (the kinds that have a
    [delete]): when [get] of the id raises the kind's NotFound exception,
    [delete] raises that same exception and has sent the read only: no
    DELETE request. *)
Theorem delete_of_absent_propagates_not_found (k : Crud.kind)
    (del : string -> M W unit) (id : string) (w : W) (fs : list (string * string))
    (Hdel : Crud.delete self k = Some del)
    (Habsent : outcome (Crud.get self k id (start w fs))
               = Raise (Crud.not_found k id)) :
  outcome (del id (start w fs)) = Raise (Crud.not_found k id)
  /\ trace (del id (start w fs)) = [Crud.read_request self k id]
  /\ existsb Crud.is_write (trace (del id (start w fs))) = false.
Proof.
  rewrite (delete_run_absent k id (start w fs) Hdel Habsent).
  split; [reflexivity | split; [reflexivity | destruct k; reflexivity]].
Qed.


Lemma write_then (B : Type) (method : Http.method) route kw (k : M W B)
    (s : state W) :
  bind (_generic_http_method_request self method route true kw) (fun _ => k) s =
  if Http.is_error (reply (http_call self method route kw) s)
  then (Raise (HTTPError (reply (http_call self method route kw) s)),
        after (http_call self method route kw) s)
  else k (after (http_call self method route kw) s).
Proof.
  unfold bind. rewrite write_run.
  destruct (Http.is_error _); reflexivity.
Qed.

Lemma get_then (B : Type) k id (c : M W B) (s : state W) :
  bind (Crud.get self k id) (fun _ => c) s =
  match Crud.read_outcome k id (reply (Crud.read_request self k id) s) with
  | Ok _ => c (after (Crud.read_request self k id) s)
  | Raise e => (Raise e, after (Crud.read_request self k id) s)
  end.
Proof. unfold bind. rewrite get_run. reflexivity. Qed.

Lemma user_update_run (user : Model.User) (s : state W) :
  ArtifactoryUser.update self user s =
  let id := Model.user_name user in
  let q1 := Crud.read_request self Crud.Users id in
  let q2 := Crud.write_request self Http.POST Crud.Users id (Model.user_dict user) in
  let q3 := Crud.write_request self Http.POST Crud.Users id
              (Model.exclude ["lastLoggedIn"; "realm"] (Model.user_dict user)) in
  match Crud.read_outcome Crud.Users id (reply q1 s) with
  | Raise e => (Raise e, after q1 s)
  | Ok _ =>
      if Http.is_error (reply q2 (after q1 s))
      then (Raise (HTTPError (reply q2 (after q1 s))), after q2 (after q1 s))
      else if Http.is_error (reply q3 (after q2 (after q1 s)))
      then (Raise (HTTPError (reply q3 (after q2 (after q1 s)))),
            after q3 (after q2 (after q1 s)))
      else Crud.get self Crud.Users id (after q3 (after q2 (after q1 s)))
  end.
Proof.
  unfold ArtifactoryUser.update.
  change (ArtifactoryUser.get self (Model.user_name user))
    with (Crud.get self Crud.Users (Model.user_name user)).
  rewrite get_then. cbv zeta.
  destruct (Crud.read_outcome _ _ _); [|reflexivity].
  unfold _post. rewrite write_then.
  destruct (Http.is_error _); [reflexivity|].
  rewrite write_then. reflexivity.
Qed.

Lemma group_update_run (group : Model.Group) (s : state W) :
  ArtifactoryGroup.update self group s =
  let id := Model.group_name group in
  let q1 := Crud.read_request self Crud.Groups id in
  let q2 := Crud.write_request self Http.POST Crud.Groups id (Model.group_dict group) in
  match Crud.read_outcome Crud.Groups id (reply q1 s) with
  | Raise e => (Raise e, after q1 s)
  | Ok _ =>
      if Http.is_error (reply q2 (after q1 s))
      then (Raise (HTTPError (reply q2 (after q1 s))), after q2 (after q1 s))
      else Crud.get self Crud.Groups id (after q2 (after q1 s))
  end.
Proof.
  unfold ArtifactoryGroup.update.
  change (ArtifactoryGroup.get self (Model.group_name group))
    with (Crud.get self Crud.Groups (Model.group_name group)).
  rewrite get_then. cbv zeta.
  destruct (Crud.read_outcome _ _ _); [|reflexivity].
  unfold _post. rewrite write_then. reflexivity.
Qed.

Lemma repo_update_run (repo : Model.AnyRepository) (s : state W) :
  ArtifactoryRepository.update_repo self repo s =
  let id := Model.repo_key repo in
  let q1 := Crud.read_request self Crud.Repositories id in
  let q2 := Crud.write_request self Http.POST Crud.Repositories id
              (Model.repo_dict repo) in
  match Crud.read_outcome Crud.Repositories id (reply q1 s) with
  | Raise e => (Raise e, after q1 s)
  | Ok _ =>
      if Http.is_error (reply q2 (after q1 s))
      then (Raise (HTTPError (reply q2 (after q1 s))), after q2 (after q1 s))
      else Crud.get self Crud.Repositories id (after q2 (after q1 s))
  end.
Proof.
  unfold ArtifactoryRepository.update_repo.
  change (ArtifactoryRepository.get_repo self (Model.repo_key repo))
    with (Crud.get self Crud.Repositories (Model.repo_key repo)).
  rewrite get_then. cbv zeta.
  destruct (Crud.read_outcome _ _ _); [|reflexivity].
  unfold _post. rewrite write_then. reflexivity.
Qed.

Lemma permission_update_run (permission : Model.Permission) (s : state W) :
  ArtifactoryPermission.update self permission s =
  let id := Model.permission_name permission in
  let q := Crud.write_request self Http.PUT Crud.Permissions id
             (Model.permission_dict permission) in
  if Http.is_error (reply q s)
  then (Raise (HTTPError (reply q s)), after q s)
  else Crud.get self Crud.Permissions id (after q s).
Proof.
  unfold ArtifactoryPermission.update, _put. rewrite write_then. reflexivity.
Qed.

Ltac updates :=
  cbv [Crud.update]; cbn [Crud.kind_of Crud.id_of Crud.dict_of] in *;
  rewrite ?user_update_run, ?group_update_run, ?repo_update_run,
    ?permission_update_run; cbv zeta.

(** C3, amended.  For Users, Groups and Repositories, [update] first reads
    the record's id: when that [get] raises (NotFound included), [update]
    raises the same exception and has sent nothing but the read; when it
    succeeds, the next request is a POST of the serialized record to the
    resource's endpoint; and whenever [update] returns, what it returns is
    the result of a last [get], run after the read and one or more POSTs to
    that endpoint.  For Permissions the write is a PUT of the serialized
    record, and what [update] returns is the result of a [get] run right
    after it. *)
Theorem update_checks_existence_then_writes (r : Crud.record) (w : W)
    (fs : list (string * string)) :
  let k := Crud.kind_of r in
  let id := Crud.id_of r in
  let s := start w fs in
  (k <> Crud.Permissions ->
   (forall e, outcome (Crud.get self k id s) = Raise e ->
      outcome (Crud.update self r s) = Raise e
      /\ trace (Crud.update self r s) = [Crud.read_request self k id])
   /\ (forall o, outcome (Crud.get self k id s) = Ok o ->
         exists rest,
           trace (Crud.update self r s) =
           Crud.read_request self k id
             :: Crud.write_request self Http.POST k id (Crud.dict_of r) :: rest)
   /\ (forall o, outcome (Crud.update self r s) = Ok o ->
         exists s' posts,
           Crud.update self r s = Crud.get self k id s'
           /\ sent s' = Crud.read_request self k id :: posts
           /\ posts <> []
           /\ Forall (Crud.posts_to self k id) posts))
  /\ (k = Crud.Permissions ->
      forall o, outcome (Crud.update self r s) = Ok o ->
        exists s' pre,
          Crud.update self r s = Crud.get self k id s'
          /\ sent s' =
             (pre ++ [Crud.write_request self Http.PUT k id (Crud.dict_of r)])%list).
Proof.
  cbv zeta. split.
  - intros Hk. split; [|split].
    + intros e H. rewrite get_run in H. cbv [outcome trace fst] in *.
      destruct r; try (exfalso; apply Hk; reflexivity); updates;
        rewrite H; split; reflexivity.
    + intros o H. rewrite get_run in H. cbv [outcome trace fst] in *.
      destruct r; try (exfalso; apply Hk; reflexivity); updates;
        rewrite H;
        repeat match goal with
               | |- context [if Http.is_error ?x then _ else _] =>
                   destruct (Http.is_error x)
               end;
        rewrite ?get_run; cbn [snd sent after start app]; eexists; reflexivity.
    + intros o. cbv [outcome].
      destruct r; try (exfalso; apply Hk; reflexivity); updates;
        (destruct (Crud.read_outcome _ _ _); [|discriminate]);
        repeat match goal with
               | |- context [if Http.is_error ?x then _ else _] =>
                   destruct (Http.is_error x); [discriminate|]
               end;
        intros _; eexists; eexists; (split; [reflexivity|]);
        cbn [sent after start app]; (split; [reflexivity|]);
        (split; [discriminate|]); repeat constructor.
  - intros Hk o. cbv [outcome].
    destruct r; try discriminate; updates.
    destruct (Http.is_error _); [discriminate|].
    intros _. eexists. exists []. split; reflexivity.
Qed.


(** C10.  The requests of [ArtifactoryUser.update] are always a non-empty
    prefix of: the read of the existence check, a POST of the whole
    serialized record, a POST of the record without [lastLoggedIn] and
    [realm], the read of the re-fetch; and they are that whole list whenever
    [update] returns.  So exactly two POSTs, in that order, stand before
    the re-fetch. *)
Theorem user_update_posts_twice (user : Model.User) (w : W)
    (fs : list (string * string)) :
  let run := ArtifactoryUser.update (Obj := Obj) self user (start w fs) in
  (exists n, 1 <= n /\ trace run = firstn n (Crud.user_update_requests self user))
  /\ (forall o, outcome run = Ok o ->
        trace run = Crud.user_update_requests self user).
Proof.
  cbv zeta. rewrite user_update_run. cbv zeta. cbv [outcome trace].
  destruct (Crud.read_outcome _ _ _).
  2:{ split; [exists 1; split; [lia | reflexivity] | discriminate]. }
  destruct (Http.is_error _).
  { split; [exists 2; split; [lia | reflexivity] | discriminate]. }
  destruct (Http.is_error _).
  { split; [exists 3; split; [lia | reflexivity] | discriminate]. }
  rewrite get_run.
  split; [exists 4; split; [lia | reflexivity] | reflexivity].
Qed.

Lemma http_bind (B : Type) (method : Http.method) route kw
    (k : Http.Response -> M W B) (s : state W) :
  bind (_generic_http_method_request self method route true kw) k s =
  if Http.is_error (reply (http_call self method route kw) s)
  then (Raise (HTTPError (reply (http_call self method route kw) s)),
        after (http_call self method route kw) s)
  else k (reply (http_call self method route kw) s)
         (after (http_call self method route kw) s).
Proof.
  unfold bind. rewrite write_run.
  destruct (Http.is_error _); reflexivity.
Qed.

Lemma info_run (artifact_path : string) (s : state W) :
  ArtifactoryArtifact.info self artifact_path s =
  (let response := reply (ArtifactCall.info_request self artifact_path) s in
   if Http.is_error response then
     if Z.eqb (Http.status_code response) 404
     then Raise (ArtifactNotFoundException
                   ("Artifact " ++ Py.lstrip "/" artifact_path ++ " does not exist"))
     else Raise (ArtifactoryException (HTTPError response))
   else parsed ArtifactInfoResponse response,
   after (ArtifactCall.info_request self artifact_path) s).
Proof.
  unfold ArtifactoryArtifact.info, try_except, _get, ArtifactCall.info_request.
  rewrite http_bind. cbv zeta.
  destruct (Http.is_error _).
  - cbv [except_HTTPError_404 raise]. destruct (Z.eqb _ 404); reflexivity.
  - cbv [parse parsed]. destruct (Http.json _) as [j|]; [|reflexivity].
    destruct (parse_obj_as _ j); reflexivity.
Qed.

Lemma status_is_error (r : Http.Response) :
  Http.status_code r = 404%Z \/ Http.status_code r = 400%Z ->
  Http.is_error r = true.
Proof. unfold Http.is_error. intros [-> | ->]; reflexivity. Qed.

(** C4, amended.  For [get] of the four kinds, an HTTP error of status 404
    or 400 becomes the kind's NotFound exception with the id in its message,
    and an HTTP error of any other status becomes an [ArtifactoryException]
    raised from it.  For [info], status 404 alone becomes
    [ArtifactNotFoundException], with the normalized path in its message;
    every other HTTP error, 400 included, becomes an [ArtifactoryException]
    raised from it. *)
Theorem read_errors_are_translated (k : Crud.kind) (id path : string)
    (s : state W) :
  let r := reply (Crud.read_request self k id) s in
  let r' := reply (ArtifactCall.info_request self path) s in
  (Http.status_code r = 404%Z \/ Http.status_code r = 400%Z ->
   outcome (Crud.get self k id s) = Raise (Crud.not_found k id))
  /\ (Http.is_error r = true ->
      Http.status_code r <> 404%Z -> Http.status_code r <> 400%Z ->
      outcome (Crud.get self k id s) = Raise (ArtifactoryException (HTTPError r)))
  /\ (Http.status_code r' = 404%Z ->
      outcome (ArtifactoryArtifact.info (Obj := Obj) self path s)
      = Raise (ArtifactNotFoundException
                 ("Artifact " ++ Py.lstrip "/" path ++ " does not exist")))
  /\ (Http.is_error r' = true -> Http.status_code r' <> 404%Z ->
      outcome (ArtifactoryArtifact.info (Obj := Obj) self path s)
      = Raise (ArtifactoryException (HTTPError r'))).
Proof.
  cbv zeta. rewrite get_run, info_run. cbv [outcome fst Crud.read_outcome].
  repeat split.
  - intros H. rewrite (status_is_error _ H).
    destruct H as [-> | ->]; reflexivity.
  - intros -> H1 H2.
    destruct (Z.eqb_spec (Http.status_code (reply (Crud.read_request self k id) s)) 404);
      [contradiction|].
    destruct (Z.eqb_spec (Http.status_code (reply (Crud.read_request self k id) s)) 400);
      [contradiction|]. reflexivity.
  - intros H. rewrite (status_is_error _ (or_introl H)), H. reflexivity.
  - intros -> H1.
    destruct (Z.eqb_spec (Http.status_code (reply (ArtifactCall.info_request self path) s)) 404);
      [contradiction | reflexivity].
Qed.

(** C9.  When neither argument is supplied, that is, when both are false
    for the test [any([token, token_id])] ([None], or an empty string),
    [revoke_access_token] raises [InvalidTokenDataException] and has sent
    nothing.  When one of them passes that test it sends one POST and,
    whatever the status of the response, returns a boolean: [response.ok],
    which is true exactly when the status is not an error status (400 to
    599). *)
Theorem revoke_access_token_reports_by_boolean (token token_id : option string)
    (w : W) (fs : list (string * string)) :
  let run := ArtifactorySecurity.revoke_access_token self token token_id
               (start w fs) in
  let response := reply (ArtifactorySecurity.revoke_request self token token_id) (start w fs) in
  (ArtifactorySecurity.truthy token = false ->
   ArtifactorySecurity.truthy token_id = false ->
   outcome run = Raise InvalidTokenDataException /\ trace run = [])
  /\ (ArtifactorySecurity.truthy token = true
      \/ ArtifactorySecurity.truthy token_id = true ->
      outcome run = Ok (Http.ok response)
      /\ trace run = [ArtifactorySecurity.revoke_request self token token_id])
  /\ (Http.ok response = true <->
      ~ (400 <= Http.status_code response < 600)%Z)
  /\ (outcome (ArtifactorySecurity.revoke_access_token self None None (start w fs))
        = Raise InvalidTokenDataException
      /\ trace (ArtifactorySecurity.revoke_access_token self None None (start w fs))
         = []).
Proof.
  cbv zeta. unfold ArtifactorySecurity.revoke_access_token, ArtifactorySecurity.revoke_request.
  cbn [existsb]. rewrite orb_false_r. repeat split.
  - rewrite H, H0. reflexivity.
  - rewrite H, H0. reflexivity.
  - assert (E : (ArtifactorySecurity.truthy token
                 || ArtifactorySecurity.truthy token_id)%bool = true)
      by (destruct H as [-> | ->]; [reflexivity | apply orb_true_r]).
    rewrite E. cbn [negb]. unfold bind. rewrite http_run. cbn [andb].
    cbv [outcome fst]. destruct (Http.ok _); reflexivity.
  - assert (E : (ArtifactorySecurity.truthy token
                 || ArtifactorySecurity.truthy token_id)%bool = true)
      by (destruct H as [-> | ->]; [reflexivity | apply orb_true_r]).
    rewrite E. cbn [negb]. unfold bind. rewrite http_run. cbn [andb].
    destruct (Http.ok _); reflexivity.
  - unfold Http.ok, Http.is_error. intros H.
    apply negb_true_iff in H. apply andb_false_iff in H. lia.
  - unfold Http.ok, Http.is_error. intros H.
    apply negb_true_iff. apply andb_false_iff. lia.
Qed.


Lemma normalize_run (c : ArtifactCall.call) (s : state W) :
  ArtifactCall.run (Obj := Obj) self c s
  = ArtifactCall.run self (ArtifactCall.normalize c) s.
Proof.
  destruct c; cbv [ArtifactCall.run ArtifactCall.normalize
    ArtifactoryArtifact.info ArtifactoryArtifact.deploy
    ArtifactoryArtifact.download ArtifactoryArtifact.properties
    ArtifactoryArtifact.stats ArtifactoryArtifact.copy
    ArtifactoryArtifact.move ArtifactoryArtifact.delete];
    rewrite !lstrip_idem; reflexivity.
Qed.

Lemma chunks_leave_log (path : string) (chunks : list string) (s : state W) :
  exists s',
    ArtifactoryArtifact.write_chunks path chunks s = (Ok tt, s')
    /\ sent s' = sent s.
Proof.
  unfold ArtifactoryArtifact.write_chunks.
  revert s. induction chunks as [|c l IH]; intros s; simpl.
  - exists s. split; reflexivity.
  - unfold bind at 1. destruct (Py.truthy_str c).
    + unfold write at 1.
      match goal with |- context [fold_right _ _ l ?s1] =>
        destruct (IH s1) as [s' [E L]] end.
      exists s'. split; [exact E | exact L].
    + unfold ret at 1. apply IH.
Qed.

Lemma mkdir_keeps (d : string) (s : state W) :
  sent (snd (mkdir d s)) = sent s /\ files (snd (mkdir d s)) = files s.
Proof.
  unfold mkdir. destruct (lookup d (files s)); split; reflexivity.
Qed.

Lemma open_wb_keeps (path : string) (s : state W) :
  sent (snd (open_wb path s)) = sent s
  /\ (forall e, fst (open_wb path s) = Raise e ->
        files (snd (open_wb path s)) = files s).
Proof.
  unfold open_wb. destruct path as [|a path]; [split; reflexivity|].
  destruct (fst (disk_create _ _)); [split; reflexivity|].
  destruct (Py.ends_with _ _); split; try reflexivity.
  intros e H. discriminate H.
Qed.

Lemma local_target_run (name : string) (local_directory_path : option string)
    (s : state W) :
  ArtifactoryArtifact.local_target name local_directory_path s =
  match local_directory_path with
  | Some (String a d) =>
      match mkdir (String a d) s with
      | (Ok _, s1) => (Ok (String a d ++ "/" ++ name), s1)
      | (Raise e, s1) => (Raise e, s1)
      end
  | _ => (Ok name, s)
  end.
Proof.
  unfold ArtifactoryArtifact.local_target.
  destruct local_directory_path as [[|a d]|]; reflexivity.
Qed.


(** [download], step by step. *)
Lemma download_run (artifact_path : string) (local_directory_path : option string)
    (s : state W) :
  ArtifactoryArtifact.download self artifact_path local_directory_path s =
  let q := http_call self Http.GET (Py.lstrip "/" artifact_path)
             {| Http.params := []; Http.body := Http.NoBody;
                Http.stream := true |} in
  match ArtifactoryArtifact.local_target (Py.last_segment "/" (Py.lstrip "/" artifact_path))
          local_directory_path s with
  | (Raise e, s1) => (Raise e, s1)
  | (Ok path, s1) =>
      if Http.is_error (reply q s1)
      then (Raise (HTTPError (reply q s1)), after q s1)
      else
        match open_wb path (after q s1) with
        | (Raise e, s2) => (Raise e, s2)
        | (Ok _, s2) =>
            match ArtifactoryArtifact.write_chunks path
                    (Http.iter_content (8 * 1024) (reply q s1)) s2 with
            | (Ok _, s3) => (Ok path, s3)
            | (Raise e, s3) => (Raise e, s3)
            end
        end
  end.
Proof.
  unfold ArtifactoryArtifact.download. cbv zeta. unfold bind at 1.
  destruct (ArtifactoryArtifact.local_target _ _ s) as [[path|e] s1]; [|reflexivity].
  unfold _get. rewrite http_bind.
  destruct (Http.is_error _); [reflexivity|].
  unfold bind at 1. destruct (open_wb path _) as [[u|e] s2]; [|reflexivity].
  unfold bind at 1.
  destruct (ArtifactoryArtifact.write_chunks _ _ s2) as [[u'|e] s3]; reflexivity.
Qed.

Lemma first_request (c : ArtifactCall.call) (w : W) (fs : list (string * string)) :
  heads (trace (ArtifactCall.run (Obj := Obj) self c (start w fs))) =
  if ArtifactCall.opens c (start w fs)
  then Some (ArtifactCall.first_method c,
             Http.url self ++ "/" ++ ArtifactCall.first_route c)
  else None.
Proof.
  destruct c; cbn [ArtifactCall.opens ArtifactCall.first_method
                   ArtifactCall.first_route ArtifactCall.run].
  - unfold bind. rewrite info_run. cbv zeta.
    destruct (if Http.is_error _ then _ else _); reflexivity.
  - unfold ArtifactoryArtifact.deploy. unfold bind at 1 2. unfold open_rb.
    cbn [files start]. destruct (lookup local_file_location fs); [|reflexivity].
    unfold _put. rewrite write_then.
    destruct (Http.is_error _); [reflexivity|].
    rewrite info_run. cbv zeta.
    destruct (if Http.is_error _ then _ else _); reflexivity.
  - assert (Tail : forall path s1, sent s1 = [] ->
      heads (trace
        (let (r, s') :=
           (if Http.is_error
                 (reply (http_call self Http.GET (Py.lstrip "/" artifact_path)
                    {| Http.params := []; Http.body := Http.NoBody;
                       Http.stream := true |}) s1)
            then (Raise (HTTPError
                    (reply (http_call self Http.GET (Py.lstrip "/" artifact_path)
                       {| Http.params := []; Http.body := Http.NoBody;
                          Http.stream := true |}) s1)),
                  after (http_call self Http.GET (Py.lstrip "/" artifact_path)
                    {| Http.params := []; Http.body := Http.NoBody;
                       Http.stream := true |}) s1)
            else
              match open_wb path
                      (after (http_call self Http.GET (Py.lstrip "/" artifact_path)
                         {| Http.params := []; Http.body := Http.NoBody;
                            Http.stream := true |}) s1) with
              | (Raise e, s2) => (Raise e, s2)
              | (Ok _, s2) =>
                  match ArtifactoryArtifact.write_chunks path
                          (Http.iter_content (8 * 1024)
                             (reply (http_call self Http.GET
                                (Py.lstrip "/" artifact_path)
                                {| Http.params := []; Http.body := Http.NoBody;
                                   Http.stream := true |}) s1)) s2 with
                  | (Ok _, s3) => (Ok path, s3)
                  | (Raise e, s3) => (Raise e, s3)
                  end
              end) in
         match r with
         | Ok a => ret (ArtifactCall.FileName (Obj := Obj) a) s'
         | Raise e => (Raise e, s')
         end))
      = Some (Http.GET, Http.url self ++ "/" ++ Py.lstrip "/" artifact_path)).
    { intros path s1 Hsent.
      destruct (Http.is_error _);
        [cbv [trace heads snd]; cbn [sent after]; rewrite Hsent; reflexivity|].
      pose proof (open_wb_keeps path
        (after (http_call self Http.GET (Py.lstrip "/" artifact_path)
                  {| Http.params := []; Http.body := Http.NoBody;
                     Http.stream := true |}) s1)) as [Ho _].
      destruct (open_wb path _) as [[u|e] s2]; cbn [snd] in Ho.
      - match goal with
        | |- context [ArtifactoryArtifact.write_chunks ?p ?l ?s0] =>
            destruct (chunks_leave_log p l s0) as [s' [E L]]; rewrite E
        end.
        cbv [ret trace heads snd]. rewrite L, Ho. cbn [sent after].
        rewrite Hsent. reflexivity.
      - cbv [trace heads snd]. rewrite Ho. cbn [sent after].
        rewrite Hsent. reflexivity. }
    unfold bind at 1. rewrite download_run. cbv zeta. rewrite local_target_run.
    destruct local_directory_path as [[|a d]|]; try (apply Tail; reflexivity).
    pose proof (mkdir_keeps (String a d) (start w fs)) as [Hsent _].
    destruct (mkdir (String a d) (start w fs)) as [[u|e] s1]; cbn [fst snd] in *.
    + apply Tail. exact Hsent.
    + cbv [trace heads snd]. rewrite Hsent. reflexivity.
  - unfold bind. unfold ArtifactoryArtifact.properties, try_except, _get.
    rewrite http_bind.
    destruct (Http.is_error _).
    + cbv [except_HTTPError_404 raise]. destruct (Z.eqb _ 404); reflexivity.
    + cbv [parse parsed]. destruct (Http.json _) as [j|]; [|reflexivity].
      destruct (parse_obj_as _ j); reflexivity.
  - unfold bind at 1. unfold ArtifactoryArtifact.stats, _get. rewrite http_bind.
    destruct (Http.is_error _); [reflexivity|].
    cbv [parse parsed]. destruct (Http.json _) as [j|]; [|reflexivity].
    destruct (parse_obj_as _ j); reflexivity.
  - unfold bind at 1. unfold ArtifactoryArtifact.copy, _post. rewrite write_then.
    destruct (Http.is_error _); [destruct dryrun; reflexivity|].
    rewrite info_run. cbv zeta.
    destruct (if Http.is_error _ then _ else _); destruct dryrun; reflexivity.
  - unfold bind at 1. unfold ArtifactoryArtifact.move, _post. rewrite write_then.
    destruct (Http.is_error _); [destruct dryrun; reflexivity|].
    rewrite info_run. cbv zeta.
    destruct (if Http.is_error _ then _ else _); destruct dryrun; reflexivity.
  - unfold bind at 1. unfold ArtifactoryArtifact.delete, _delete. rewrite write_then.
    destruct (Http.is_error _); reflexivity.
Qed.

(** C8, amended.  Every artifact operation runs exactly as it does on the
    paths stripped of all their leading slashes; its first request (there
    is one unless [deploy] cannot open its local file or [download] cannot
    make its local directory) goes to the route built from the stripped
    paths; and the stripped path is the path without its whole run of
    leading slashes: it starts with none, and [//a/b] becomes [a/b]. *)
Theorem artifact_paths_lose_every_leading_slash (c : ArtifactCall.call) (w : W)
    (fs : list (string * string)) :
  ArtifactCall.run (Obj := Obj) self c (start w fs)
    = ArtifactCall.run self (ArtifactCall.normalize c) (start w fs)
  /\ heads (trace (ArtifactCall.run (Obj := Obj) self c (start w fs))) =
       (if ArtifactCall.opens c (start w fs)
        then Some (ArtifactCall.first_method c,
                   Http.url self ++ "/" ++ ArtifactCall.first_route c)
        else None)
  /\ (forall p, exists n,
        p = Py.repeat_char "/" n ++ Py.lstrip "/" p
        /\ forall t, Py.lstrip "/" p <> String "/" t)
  /\ Py.lstrip "/" "//a/b" = "a/b".
Proof.
  split; [apply normalize_run | split; [apply first_request | split]].
  - intros p. destruct (lstrip_strips_all "/" p) as [[n H1] H2].
    exists n. split; assumption.
  - reflexivity.
Qed.

End Runs.


(** C1 on a server that holds the user [bob]. *)
Lemma create_of_existing_is_refused_witness :
  outcome (Crud.create (Obj := Json.value) Demo.server
             (Crud.NewUserRecord new_bob) (start with_bob []))
  = Raise (UserAlreadyExistsException "User bob already exists").
Proof.
  exact (proj1 (@create_of_existing_is_refused Demo.store _ Json.value _ Demo.server (Crud.NewUserRecord new_bob) with_bob [] (Json.JDict bob_fields) eq_refl)).
Defined.

(** C2 on an empty server. *)
Lemma delete_of_absent_witness :
  outcome (ArtifactoryUser.delete (Obj := Json.value) Demo.server "bob"
             (start empty []))
  = Raise (UserNotFoundException "bob does not exist").
Proof.
  exact (proj1 (@delete_of_absent_propagates_not_found Demo.store _ Json.value _
                  Demo.server Crud.Users _ "bob" empty [] eq_refl eq_refl)).
Defined.

(** C3, as stated, fails for Permissions: on an empty server [get] of the
    permission raises NotFound, yet [update] returns, having sent a PUT
    and then the read of the re-fetch; it sends no POST. *)
Lemma permission_update_writes_without_check :
  outcome (Crud.get (Obj := Json.value) Demo.server Crud.Permissions "readers"
             (start empty []))
  = Raise (Crud.not_found Crud.Permissions "readers")
  /\ outcome (Crud.update (Obj := Json.value) Demo.server
                (Crud.PermissionRecord readers) (start empty []))
     = Ok (Json.JDict [("name", Json.JStr "readers")])
  /\ map Http.req_method
       (trace (Crud.update (Obj := Json.value) Demo.server
                 (Crud.PermissionRecord readers) (start empty [])))
     = [Http.PUT; Http.GET].
Proof. repeat split; vm_compute; reflexivity. Qed.

(** The amended C3 for the user [bob], absent and present. *)
Lemma update_witness :
  outcome (Crud.update (Obj := Json.value) Demo.server (Crud.UserRecord bob)
             (start empty []))
  = Raise (UserNotFoundException "bob does not exist")
  /\ map Http.req_method
       (trace (Crud.update (Obj := Json.value) Demo.server (Crud.UserRecord bob)
                 (start with_bob [])))
     = [Http.GET; Http.POST; Http.POST; Http.GET].
Proof.
  split.
  - apply (proj1 (@update_checks_existence_then_writes Demo.store _ Json.value _
                    Demo.server (Crud.UserRecord bob) empty [])).
    + discriminate.
    + reflexivity.
  - vm_compute. reflexivity.
Defined.

(** C10 for the user [bob] on a server that holds him, with the bodies of
    the four requests. *)
Lemma user_update_posts_twice_witness :
  trace (ArtifactoryUser.update (Obj := Json.value) Demo.server bob
           (start with_bob []))
  = Crud.user_update_requests Demo.server bob
  /\ map Http.req_body (Crud.user_update_requests Demo.server bob)
     = [ Http.NoBody;
         Http.JsonBody (Json.JDict bob_fields);
         Http.JsonBody
           (Json.JDict [("name", Json.JStr "bob");
                        ("email", Json.JStr "bob@example.org")]);
         Http.NoBody ].
Proof.
  split.
  - exact (proj2 (@user_update_posts_twice Demo.store _ Json.value _ Demo.server
                    bob with_bob [])
             (Json.JDict (Model.exclude ["lastLoggedIn"; "realm"] bob_fields))
             eq_refl).
  - reflexivity.
Defined.

(** C4, as stated, fails for [info]: a response of status 400 is raised as
    an [ArtifactoryException], not as [ArtifactNotFoundException]. *)
Lemma info_on_400_is_not_not_found :
  Http.status_code (Demo.reply 400 None) = 400%Z
  /\ outcome (ArtifactoryArtifact.info (Obj := Json.value) Demo.server
                "libs/app-1.0.jar" (start [Demo.reply 400 None] []))
     = Raise (ArtifactoryException (HTTPError (Demo.reply 400 None)))
  /\ outcome (ArtifactoryArtifact.info (Obj := Json.value) Demo.server
                "libs/app-1.0.jar" (start [Demo.reply 400 None] []))
     <> Raise (ArtifactNotFoundException
                 "Artifact libs/app-1.0.jar does not exist").
Proof.
  split; [reflexivity | split; [vm_compute; reflexivity | vm_compute; discriminate]].
Qed.

(** The amended C4 at statuses 400, 503 and 404. *)
Lemma read_errors_witness :
  outcome (Crud.get (Obj := Json.value) Demo.server Crud.Groups "devs"
             (start [Demo.reply 400 None] []))
  = Raise (GroupNotFoundException "Group devs does not exist")
  /\ outcome (Crud.get (Obj := Json.value) Demo.server Crud.Groups "devs"
                (start [Demo.reply 503 None] []))
     = Raise (ArtifactoryException (HTTPError (Demo.reply 503 None)))
  /\ outcome (ArtifactoryArtifact.info (Obj := Json.value) Demo.server
                "/libs/app-1.0.jar" (start [Demo.reply 404 None] []))
     = Raise (ArtifactNotFoundException
                "Artifact libs/app-1.0.jar does not exist").
Proof.
  split; [|split].
  - exact (proj1 (@read_errors_are_translated Demo.script _ Json.value _
              Demo.server Crud.Groups "devs" "" (start [Demo.reply 400 None] []))
             (or_intror eq_refl)).
  - exact (proj1 (proj2 (@read_errors_are_translated Demo.script _ Json.value _
              Demo.server Crud.Groups "devs" "" (start [Demo.reply 503 None] [])))
             eq_refl
             (fun H : 503%Z = 404%Z => Z.neq_sym _ _ (Z.lt_neq 404 503 eq_refl) H)
             (fun H : 503%Z = 400%Z => Z.neq_sym _ _ (Z.lt_neq 400 503 eq_refl) H)).
  - exact (proj1 (proj2 (proj2 (@read_errors_are_translated Demo.script _
              Json.value _ Demo.server Crud.Groups "" "/libs/app-1.0.jar"
              (start [Demo.reply 404 None] [])))) eq_refl).
Defined.

(** C8, as stated, fails: [info] on [//a/b] asks for [api/storage/a/b];
    both slashes are stripped, not one. *)
Lemma info_strips_both_slashes :
  map Http.req_url
    (trace (ArtifactoryArtifact.info (Obj := Json.value) Demo.server "//a/b"
              (start empty [])))
  = ["http://localhost/artifactory/api/storage/a/b"]
  /\ Py.lstrip "/" "//a/b" <> "/a/b".
Proof. split; [vm_compute; reflexivity | vm_compute; discriminate]. Qed.

(** The amended C8 for a dry-run copy. *)
Lemma artifact_paths_witness :
  heads (trace (ArtifactCall.run (Obj := Json.value) Demo.server
                  (ArtifactCall.Copy "//a/b" "/c" true) (start empty [])))
  = Some (Http.POST, "http://localhost/artifactory/api/copy/a/b?to=c&dry=1").
Proof.
  exact (proj1 (proj2 (@artifact_paths_lose_every_leading_slash Demo.store _
                         Json.value _ _ Demo.server
                         (ArtifactCall.Copy "//a/b" "/c" true) empty []))).
Defined.

(** C9 with a token answered by 404 and a token id answered by 200. *)
Lemma revoke_access_token_witness :
  outcome (ArtifactorySecurity.revoke_access_token Demo.server (Some "abc") None
             (start [Demo.reply 404 None] []))
  = Ok false
  /\ outcome (ArtifactorySecurity.revoke_access_token Demo.server None (Some "id7")
                (start [Demo.reply 200 None] []))
     = Ok true.
Proof.
  split.
  - exact (proj1 (proj1 (proj2 (@revoke_access_token_reports_by_boolean
             Demo.script _ Demo.server (Some "abc") None [Demo.reply 404 None] []))
             (or_introl eq_refl))).
  - exact (proj1 (proj1 (proj2 (@revoke_access_token_reports_by_boolean
             Demo.script _ Demo.server None (Some "id7") [Demo.reply 200 None] []))
             (or_intror eq_refl))).
Defined.

(* ================================================================= *)
(** ** The remaining code *)





Lemma has_char_last_segment (c : ascii) (p : string) :
  Py.has_char c (Py.last_segment c p) = false.
Proof.
  induction p as [|a p IH]; [reflexivity|].
  cbn [Py.last_segment]. destruct (Py.has_char c (String a p)) eqn:E; assumption.
Qed.

Lemma last_segment_suffix (c : ascii) (p : string) :
  exists pre, p = pre ++ Py.last_segment c p
              /\ (pre = "" \/ exists pre', pre = pre' ++ String c "").
Proof.
  induction p as [|a p (pre & E & Hpre)].
  - exists "". split; [reflexivity | now left].
  - cbn [Py.last_segment]. destruct (Py.has_char c (String a p)) eqn:H.
    + exists (String a pre). split; [simpl; now rewrite <- E |].
      right. destruct Hpre as [-> | [pre' ->]].
      * simpl in E. cbn [Py.has_char] in H.
        destruct (Ascii.eqb_spec a c) as [-> | Hne]; [now exists "" |].
        simpl in H. rewrite E, has_char_last_segment in H. discriminate.
      * now exists (String a pre').
    + exists "". split; [reflexivity | now left].
Qed.

(** X11.  The last segment of a path, which [download] takes as the local file
    name, holds no separator, and the path is a prefix followed by that
    segment, the prefix being empty or ending in the separator. *)
Theorem last_segment_is_the_text_after_the_last_separator (c : ascii) (p : string) :
  Py.has_char c (Py.last_segment c p) = false
  /\ exists pre, p = pre ++ Py.last_segment c p
                 /\ (pre = "" \/ exists pre', pre = pre' ++ String c "").
Proof. split; [apply has_char_last_segment | apply last_segment_suffix]. Qed.



Lemma has_char_append (c : ascii) (a b : string) :
  Py.has_char c (a ++ b) = (Py.has_char c a || Py.has_char c b)%bool.
Proof.
  induction a as [|x a IH]; simpl; [reflexivity|].
  rewrite IH. now rewrite orb_assoc.
Qed.

Lemma has_char_remove_same (c : ascii) (s : string) :
  Py.has_char c (Py.remove_char c s) = false.
Proof.
  induction s as [|x s IH]; simpl; [reflexivity|].
  destruct (Ascii.eqb x c) eqn:E; simpl; [exact IH | now rewrite E].
Qed.

Lemma has_char_remove_other (c c' : ascii) (s : string) :
  Py.has_char c s = false -> Py.has_char c (Py.remove_char c' s) = false.
Proof.
  induction s as [|x s IH]; simpl; [reflexivity|].
  intros H. apply orb_false_iff in H as [Hx Hs].
  destruct (Ascii.eqb x c'); simpl; [now apply IH | rewrite Hx; now apply IH].
Qed.

(** X15.  Whatever the include list, its clause holds no square bracket:
    [replace] drops those of the JSON list and with them every bracket that
    is part of a field name. *)
Theorem include_clause_holds_no_bracket (q : AqlQuery.Aql) :
  Py.has_char "[" (AqlQuery.include_clause q) = false
  /\ Py.has_char "]" (AqlQuery.include_clause q) = false.
Proof.
  unfold AqlQuery.include_clause.
  destruct (AqlQuery.include q) as [[|x l]|]; try (split; reflexivity).
  cbv zeta. rewrite !has_char_append. split.
  - rewrite has_char_remove_other by apply has_char_remove_same. reflexivity.
  - rewrite has_char_remove_same. reflexivity.
Qed.

(** X16.  A query whose clauses are all unset, empty or 0 compiles to the domain
    followed by [.find()] and nothing else. *)
Theorem bare_query_compiles_to_an_empty_find (q : AqlQuery.Aql) (H : More.bare q) :
  AqlQuery.create_aql_query q = AqlQuery.domain q ++ ".find()".
Proof.
  destruct H as (Hf & Hi & Hs & Ho & Hl).
  unfold AqlQuery.create_aql_query, AqlQuery.find_clause, AqlQuery.include_clause,
    AqlQuery.sort_clause, AqlQuery.offset_clause, AqlQuery.limit_clause.
  cbv zeta.
  destruct Hf as [-> | ->], Hi as [-> | ->], Hs as [-> | ->],
    Ho as [-> | ->], Hl as [-> | ->];
    cbn [Z.eqb]; rewrite !append_empty_r, append_assoc; reflexivity.
Qed.

(** X16 on a query with an empty find mapping and offset 0. *)
Lemma bare_query_witness :
  AqlQuery.create_aql_query More.bare_items = "items.find()".
Proof.
  apply (@bare_query_compiles_to_an_empty_find More.bare_items).
  unfold More.bare, More.bare_items. cbn.
  repeat split; first [left; reflexivity | right; reflexivity].
Defined.

Section RemainingRuns.
Context {W : Type} {T : Http.Transport W} {Obj : Type} {Md : Models Obj}
        {Sm : Summaries Obj} {Dk : Disk W}.
Variable self : Http.AuthModel.

Ltac gets :=
  rewrite ?user_get_run, ?group_get_run, ?permission_get_run, ?repo_get_run.

Lemma create_run_absent (r : Crud.new_record) (s : state W) :
  outcome (Crud.get self (Crud.kind_of_new r) (Crud.id_of_new r) s)
    = Raise (Crud.not_found (Crud.kind_of_new r) (Crud.id_of_new r)) ->
  Crud.create self r s =
  let k := Crud.kind_of_new r in
  let id := Crud.id_of_new r in
  let q1 := Crud.read_request self k id in
  let q2 := Crud.write_request self Http.PUT k id (More.create_body r) in
  if Http.is_error (reply q2 (after q1 s))
  then (Raise (HTTPError (reply q2 (after q1 s))), after q2 (after q1 s))
  else Crud.get self k id (after q2 (after q1 s)).
Proof.
  intros H. rewrite get_run in H. cbv [outcome fst] in H. cbv zeta.
  destruct r; cbn [Crud.kind_of_new Crud.id_of_new More.create_body] in *;
    cbv [Crud.create ArtifactoryUser.create ArtifactoryGroup.create
         ArtifactoryPermission.create ArtifactoryRepository.create_repo
         try_except]; unfold bind at 1; gets; rewrite H;
    cbv [Crud.not_found]; unfold _put; rewrite write_then; reflexivity.
Qed.

(** X1.  For each kind, when [get] of the id raises the kind's NotFound, [create]
    sends a PUT of the record's mapping to the endpoint; on an error status
    it raises that [HTTPError] itself and sends nothing more, otherwise it
    ends as a fresh [get] of the id does: the requests are GET, PUT, GET
    and what is returned is what the server holds. *)
Theorem create_of_absent_puts_then_refetches (r : Crud.new_record) (w : W)
    (fs : list (string * string))
    (Habsent :
       outcome (Crud.get self (Crud.kind_of_new r) (Crud.id_of_new r) (start w fs))
       = Raise (Crud.not_found (Crud.kind_of_new r) (Crud.id_of_new r))) :
  let k := Crud.kind_of_new r in
  let id := Crud.id_of_new r in
  let q1 := Crud.read_request self k id in
  let q2 := Crud.write_request self Http.PUT k id (More.create_body r) in
  let s2 := after q2 (after q1 (start w fs)) in
  sent s2 = [q1; q2]
  /\ (Http.is_error (reply q2 (after q1 (start w fs))) = true ->
      Crud.create self r (start w fs)
      = (Raise (HTTPError (reply q2 (after q1 (start w fs)))), s2))
  /\ (Http.is_error (reply q2 (after q1 (start w fs))) = false ->
      Crud.create self r (start w fs) = Crud.get self k id s2
      /\ trace (Crud.create self r (start w fs)) = [q1; q2; q1]).
Proof.
  cbv zeta. rewrite (create_run_absent r (start w fs) Habsent). cbv zeta.
  split; [reflexivity | split]; intros ->; [reflexivity |].
  split; [reflexivity |]. rewrite get_run. reflexivity.
Qed.

Lemma read_outcome_raises k id (response : Http.Response) e :
  Crud.read_outcome (Obj := Obj) k id response = Raise e ->
  e = Crud.not_found k id
  \/ e = ArtifactoryException (HTTPError response)
  \/ e = JSONDecodeError \/ e = ValidationError.
Proof.
  unfold Crud.read_outcome, parsed.
  destruct (Http.is_error response).
  - destruct (_ || _)%bool; intros H; inversion H; auto.
  - destruct (Http.json response) as [j|]; [|intros H; inversion H; auto].
    destruct (parse_obj_as _ j); intros H; inversion H; auto.
Qed.

Lemma create_run_other (r : Crud.new_record) (s : state W) (e : exn) :
  outcome (Crud.get self (Crud.kind_of_new r) (Crud.id_of_new r) s) = Raise e ->
  e <> Crud.not_found (Crud.kind_of_new r) (Crud.id_of_new r) ->
  Crud.create self r s =
  (Raise e, after (Crud.read_request self (Crud.kind_of_new r) (Crud.id_of_new r)) s).
Proof.
  intros Hraise Hother. rewrite get_run in Hraise. cbv [outcome fst] in Hraise.
  pose proof (read_outcome_raises _ _ _ Hraise) as [E | [E | [E | E]]];
    [contradiction | | |];
    destruct r; cbn [Crud.kind_of_new Crud.id_of_new] in *;
    cbv [Crud.create ArtifactoryUser.create ArtifactoryGroup.create
         ArtifactoryPermission.create ArtifactoryRepository.create_repo
         try_except]; unfold bind at 1; gets; rewrite Hraise;
    rewrite E; reflexivity.
Qed.

(** X2.  When the existence check of [create] fails for another reason than
    absence (a server error, a body that does not parse), [create] raises
    that exception and has sent the read only: nothing is written. *)
Theorem create_writes_nothing_on_other_read_errors (r : Crud.new_record) (w : W)
    (fs : list (string * string)) (e : exn)
    (Hraise :
       outcome (Crud.get self (Crud.kind_of_new r) (Crud.id_of_new r) (start w fs))
       = Raise e)
    (Hother : e <> Crud.not_found (Crud.kind_of_new r) (Crud.id_of_new r)) :
  outcome (Crud.create self r (start w fs)) = Raise e
  /\ trace (Crud.create self r (start w fs))
     = [Crud.read_request self (Crud.kind_of_new r) (Crud.id_of_new r)].
Proof.
  rewrite (create_run_other r (start w fs) Hraise Hother). split; reflexivity.
Qed.


Lemma item_setitem_same (d : Model.fields) (k : string) (v : Json.value) :
  Raised.item (Model.setitem d k v) k = Some v.
Proof.
  induction d as [|[k' v'] d IH]; simpl.
  - now rewrite String.eqb_refl.
  - destruct (String.eqb_spec k' k) as [-> | Hne]; simpl.
    + now rewrite String.eqb_refl.
    + destruct (String.eqb_spec k' k); [contradiction | exact IH].
Qed.

Lemma item_setitem_other (d : Model.fields) (k k' : string) (v : Json.value) :
  k' <> k -> Raised.item (Model.setitem d k v) k' = Raised.item d k'.
Proof.
  intros Hne. induction d as [|[k0 v0] d IH]; simpl.
  - destruct (String.eqb_spec k k'); [congruence | reflexivity].
  - destruct (String.eqb_spec k0 k) as [-> | Hk]; simpl.
    + destruct (String.eqb_spec k k'); [congruence | reflexivity].
    + destruct (String.eqb_spec k0 k'); [reflexivity | exact IH].
Qed.

Lemma keys_setitem (d : Model.fields) (k : string) (v : Json.value) :
  map fst (Model.setitem d k v) =
  if existsb (String.eqb k) (map fst d) then map fst d
  else (map fst d ++ [k])%list.
Proof.
  induction d as [|[k' v'] d IH]; simpl; [reflexivity|].
  rewrite (String.eqb_sym k k').
  destruct (String.eqb k' k); simpl; [reflexivity|].
  rewrite IH. destruct (existsb _ _); reflexivity.
Qed.

(** X3.  The mapping [ArtifactoryUser.create] sends holds the password in the
    clear under [password]; every other field is as in [user.dict()], and
    its keys are those of [user.dict()], with [password] added at the end if
    it was not among them. *)
Theorem user_create_body_holds_the_password (user : Model.NewUser) :
  let body := More.create_body (Crud.NewUserRecord user) in
  Raised.item body "password" = Some (Json.JStr (Model.new_user_password user))
  /\ (forall k, k <> "password" ->
        Raised.item body k = Raised.item (Model.new_user_dict user) k)
  /\ map fst body =
     (if existsb (String.eqb "password") (map fst (Model.new_user_dict user))
      then map fst (Model.new_user_dict user)
      else map fst (Model.new_user_dict user) ++ ["password"])%list.
Proof.
  cbv zeta. cbn [More.create_body]. split; [apply item_setitem_same | split].
  - intros k Hk. now apply item_setitem_other.
  - apply keys_setitem.
Qed.

Lemma delete_run_present k del id (s : state W) o :
  Crud.delete self k = Some del ->
  outcome (Crud.get self k id s) = Ok o ->
  del id s =
  let q1 := Crud.read_request self k id in
  let q2 := Crud.delete_request self k id in
  (if Http.is_error (reply q2 (after q1 s))
   then Raise (HTTPError (reply q2 (after q1 s))) else Ok tt,
   after q2 (after q1 s)).
Proof.
  intros Hd H. rewrite get_run in H. cbv [outcome fst] in H. cbv zeta.
  destruct k; inversion Hd; subst del;
    cbv [ArtifactoryUser.delete ArtifactoryGroup.delete
         ArtifactoryPermission.delete]; unfold bind at 1;
    gets; rewrite H; unfold _delete; rewrite write_then;
    cbv [Crud.delete_request Crud.uri];
    destruct (Http.is_error _); reflexivity.
Qed.

(** X4.  For Users, Groups and Permissions, when [get] of the id succeeds,
    [delete] sends the read and one DELETE to the endpoint; it returns
    [None] unless the DELETE is answered by an error status, which is
    raised as that [HTTPError] itself. *)
Theorem delete_of_present_sends_one_delete (k : Crud.kind)
    (del : string -> M W unit) (id : string) (w : W) (fs : list (string * string))
    (o : Obj)
    (Hdel : Crud.delete self k = Some del)
    (Hpresent : outcome (Crud.get self k id (start w fs)) = Ok o) :
  let q1 := Crud.read_request self k id in
  let q2 := Crud.delete_request self k id in
  trace (del id (start w fs)) = [q1; q2]
  /\ outcome (del id (start w fs))
     = (if Http.is_error (reply q2 (after q1 (start w fs)))
        then Raise (HTTPError (reply q2 (after q1 (start w fs))))
        else Ok tt).
Proof.
  cbv zeta. rewrite (delete_run_present k id (start w fs) Hdel Hpresent).
  split; reflexivity.
Qed.

(** X5.  For Users, Groups and Repositories, when the record exists and the first
    POST of [update] is answered by an error status, [update] raises that
    [HTTPError] itself and has sent the read and that POST only: no second
    write and no re-fetch. *)
Theorem update_stops_at_a_failed_write (r : Crud.record) (w : W)
    (fs : list (string * string)) (o : Obj)
    (Hk : Crud.kind_of r <> Crud.Permissions)
    (Hpresent :
       outcome (Crud.get self (Crud.kind_of r) (Crud.id_of r) (start w fs)) = Ok o) :
  let q1 := Crud.read_request self (Crud.kind_of r) (Crud.id_of r) in
  let q2 := Crud.write_request self Http.POST (Crud.kind_of r) (Crud.id_of r)
              (Crud.dict_of r) in
  Http.is_error (reply q2 (after q1 (start w fs))) = true ->
  outcome (Crud.update self r (start w fs))
    = Raise (HTTPError (reply q2 (after q1 (start w fs))))
  /\ trace (Crud.update self r (start w fs)) = [q1; q2].
Proof.
  cbv zeta. intros Herr.
  rewrite get_run in Hpresent. cbv [outcome fst] in Hpresent.
  destruct r; try (exfalso; apply Hk; reflexivity);
    cbn [Crud.kind_of Crud.id_of Crud.dict_of Crud.update] in *;
    rewrite ?user_update_run, ?group_update_run, ?repo_update_run; cbv zeta;
    rewrite Hpresent, Herr; split; reflexivity.
Qed.


(** X8.  When the local file is there, [deploy] sends a PUT with its content to
    the path stripped of its leading slashes; on an error status it raises
    that [HTTPError] itself, otherwise it ends as [info] of the path does
    after the PUT. *)
Theorem deploy_puts_the_file_then_reads_info
    (local_file_location artifact_path content : string) (w : W)
    (fs : list (string * string))
    (Hfile : lookup local_file_location fs = Some content) :
  let q := http_call self Http.PUT (Py.lstrip "/" artifact_path)
             {| Http.params := []; Http.body := Http.FileBody content;
                Http.stream := false |} in
  ArtifactoryArtifact.deploy (Obj := Obj) self local_file_location artifact_path
    (start w fs)
  = if Http.is_error (reply q (start w fs))
    then (Raise (HTTPError (reply q (start w fs))), after q (start w fs))
    else ArtifactoryArtifact.info self artifact_path (after q (start w fs)).
Proof.
  cbv zeta. unfold ArtifactoryArtifact.deploy. unfold bind at 1. unfold open_rb.
  cbn [files start]. rewrite Hfile. unfold _put. rewrite write_then.
  destruct (Http.is_error _); [reflexivity|].
  rewrite !info_run. rewrite lstrip_idem.
  unfold ArtifactCall.info_request. rewrite lstrip_idem. reflexivity.
Qed.

(** X13.  [copy] and [move] send one POST carrying both stripped paths and the
    dry-run flag as 1 or 0; on an error status they raise that [HTTPError]
    itself, otherwise they end as [info] of the new path does, on a dry run
    too. *)
Theorem copy_and_move_return_the_info_of_the_destination
    (artifact_current_path artifact_new_path : string) (dryrun : bool)
    (s : state W) :
  let target := Py.lstrip "/" artifact_current_path ++ "?to="
                  ++ Py.lstrip "/" artifact_new_path ++ "&dry="
                  ++ (if dryrun then "1" else "0") in
  let qc := http_call self Http.POST ("api/copy/" ++ target) Http.no_kwargs in
  let qm := http_call self Http.POST ("api/move/" ++ target) Http.no_kwargs in
  ArtifactoryArtifact.copy (Obj := Obj) self artifact_current_path
    artifact_new_path dryrun s
  = (if Http.is_error (reply qc s)
     then (Raise (HTTPError (reply qc s)), after qc s)
     else ArtifactoryArtifact.info self artifact_new_path (after qc s))
  /\ ArtifactoryArtifact.move (Obj := Obj) self artifact_current_path
       artifact_new_path dryrun s
     = (if Http.is_error (reply qm s)
        then (Raise (HTTPError (reply qm s)), after qm s)
        else ArtifactoryArtifact.info self artifact_new_path (after qm s)).
Proof.
  cbv zeta. unfold ArtifactoryArtifact.copy, ArtifactoryArtifact.move, _post.
  rewrite !write_then. split; destruct dryrun; cbv zeta;
    (destruct (Http.is_error _); [reflexivity|]);
    rewrite !info_run; unfold ArtifactCall.info_request;
    rewrite !lstrip_idem; reflexivity.
Qed.

(** X14.  [stats] and the [delete] of an artifact send one request and check
    nothing before it; an error status, 404 included, is raised as that
    [HTTPError] itself, not as an exception of this library. *)
Theorem stats_and_delete_do_not_translate_errors (artifact_path : string)
    (s : state W) :
  let qs := http_call self Http.GET
              ("api/storage/" ++ Py.lstrip "/" artifact_path ++ "?stats")
              Http.no_kwargs in
  let qd := http_call self Http.DELETE (Py.lstrip "/" artifact_path)
              Http.no_kwargs in
  ArtifactoryArtifact.stats (Obj := Obj) self artifact_path s
  = (if Http.is_error (reply qs s) then Raise (HTTPError (reply qs s))
     else parsed ArtifactStatsResponse (reply qs s), after qs s)
  /\ ArtifactoryArtifact.delete self artifact_path s
     = (if Http.is_error (reply qd s) then Raise (HTTPError (reply qd s))
        else Ok tt, after qd s).
Proof.
  cbv zeta. unfold ArtifactoryArtifact.stats, ArtifactoryArtifact.delete,
    _get, _delete. rewrite http_bind, write_then.
  split; destruct (Http.is_error _); reflexivity.
Qed.

(** X12.  [properties] sends one GET whose [properties] parameter is the names
    joined by commas (the empty text for no names); status 404 becomes
    [PropertyNotFoundException] with the names and the stripped path, every
    other error status an [ArtifactoryException] raised from the error, and
    no error status the parsed answer. *)
Theorem properties_errors_are_translated (artifact_path : string)
    (properties : option (list string)) (s : state W) :
  let names := match properties with Some l => l | None => [] end in
  let q := http_call self Http.GET ("api/storage/" ++ Py.lstrip "/" artifact_path)
             {| Http.params := [("properties", Json.JStr (String.concat "," names))];
                Http.body := Http.NoBody; Http.stream := false |} in
  trace (ArtifactoryArtifact.properties (Obj := Obj) self artifact_path properties s)
    = (sent s ++ [q])%list
  /\ (Http.status_code (reply q s) = 404%Z ->
      outcome (ArtifactoryArtifact.properties (Obj := Obj) self artifact_path
                 properties s)
      = Raise (PropertyNotFoundException names (Py.lstrip "/" artifact_path)))
  /\ (Http.is_error (reply q s) = true -> Http.status_code (reply q s) <> 404%Z ->
      outcome (ArtifactoryArtifact.properties (Obj := Obj) self artifact_path
                 properties s)
      = Raise (ArtifactoryException (HTTPError (reply q s))))
  /\ (Http.is_error (reply q s) = false ->
      outcome (ArtifactoryArtifact.properties (Obj := Obj) self artifact_path
                 properties s)
      = parsed ArtifactPropertiesResponse (reply q s)).
Proof.
  cbv zeta. unfold ArtifactoryArtifact.properties, try_except, _get.
  rewrite http_bind. cbv [outcome trace].
  destruct (Http.is_error _) eqn:Herr.
  - cbv [except_HTTPError_404 raise].
    destruct (Z.eqb_spec (Http.status_code
      (reply (http_call self Http.GET ("api/storage/" ++ Py.lstrip "/" artifact_path)
         {| Http.params := [("properties", Json.JStr (String.concat ","
               match properties with Some l => l | None => [] end))];
            Http.body := Http.NoBody; Http.stream := false |}) s)) 404) as [E | E];
      repeat split; intros; first [reflexivity | discriminate | contradiction].
  - cbv [parse parsed].
    assert (Hs : Http.status_code
      (reply (http_call self Http.GET ("api/storage/" ++ Py.lstrip "/" artifact_path)
         {| Http.params := [("properties", Json.JStr (String.concat ","
               match properties with Some l => l | None => [] end))];
            Http.body := Http.NoBody; Http.stream := false |}) s) <> 404%Z).
    { intros E. unfold Http.is_error in Herr. rewrite E in Herr. discriminate. }
    destruct (Http.json _) as [j|]; [destruct (parse_obj_as _ j)|];
      repeat split; intros; first [reflexivity | discriminate | contradiction].
Qed.

(** X17.  [unlock] sends one POST and nothing else, so it never looks whether the
    user exists; it returns [None] unless the POST is answered by an error
    status, which is raised as that [HTTPError] itself. *)
Theorem unlock_checks_nothing (name : string) (s : state W) :
  let q := http_call self Http.POST ("api/security/unlockUsers/" ++ name)
             Http.no_kwargs in
  Listing.unlock self name s
  = (if Http.is_error (reply q s) then Raise (HTTPError (reply q s)) else Ok tt,
     after q s).
Proof.
  cbv zeta. unfold Listing.unlock, _post. rewrite write_then.
  destruct (Http.is_error _); reflexivity.
Qed.







Lemma item_exclude (names : list string) (d : Model.fields) (k : string) :
  Raised.item (Model.exclude names d) k =
  if existsb (String.eqb k) names then None else Raised.item d k.
Proof.
  unfold Model.exclude.
  induction d as [|[k' v] d IH]; cbn [filter fst Raised.item].
  - destruct (existsb _ names); reflexivity.
  - destruct (existsb (String.eqb k') names) eqn:Ek'; cbn [negb Raised.item].
    + rewrite IH. destruct (String.eqb_spec k' k) as [-> | Hne];
        [rewrite Ek'; reflexivity | reflexivity].
    + destruct (String.eqb_spec k' k) as [-> | Hne];
        [rewrite Ek'; reflexivity | exact IH].
Qed.

Lemma keys_exclude (names : list string) (d : Model.fields) :
  map fst (Model.exclude names d)
  = filter (fun f => negb (existsb (String.eqb f) names)) (map fst d).
Proof.
  unfold Model.exclude. induction d as [|[f v] d IH]; [reflexivity|].
  cbn [filter map fst]. destruct (existsb (String.eqb f) names);
    cbn [negb map fst]; now rewrite IH.
Qed.

(** X6.  The second POST of [ArtifactoryUser.update] carries the mapping of the
    first without [lastLoggedIn] and [realm]: those two keys are gone, every
    other field is as it was, in the same order. *)
Theorem user_update_second_post_drops_two_fields (user : Model.User) (k : string) :
  let body := Model.exclude ["lastLoggedIn"; "realm"] (Model.user_dict user) in
  map Http.req_body (Crud.user_update_requests self user)
  = [Http.NoBody; Http.JsonBody (Json.JDict (Model.user_dict user));
     Http.JsonBody (Json.JDict body); Http.NoBody]
  /\ Raised.item body k
     = (if (String.eqb k "lastLoggedIn" || String.eqb k "realm")%bool then None
        else Raised.item (Model.user_dict user) k)
  /\ map fst body
     = filter (fun f => negb (existsb (String.eqb f) ["lastLoggedIn"; "realm"]))
         (map fst (Model.user_dict user)).
Proof.
  cbv zeta. split; [reflexivity | split].
  - rewrite item_exclude. cbn [existsb]. rewrite orb_false_r. reflexivity.
  - apply keys_exclude.
Qed.

(** X25.  When a non-empty token is given, [revoke_access_token] runs as if no
    token id had been given: the form holds the token alone. *)
Theorem revoke_prefers_the_token (token token_id : option string) (s : state W)
    (Htoken : ArtifactorySecurity.truthy token = true) :
  ArtifactorySecurity.revoke_access_token self token token_id s
  = ArtifactorySecurity.revoke_access_token self token None s
  /\ Http.req_body (ArtifactorySecurity.revoke_request self token token_id)
     = Http.FormBody [("token", token)].
Proof.
  unfold ArtifactorySecurity.revoke_access_token,
    ArtifactorySecurity.revoke_request.
  cbn [existsb http_call Http.req_body Http.body]. rewrite Htoken. split; reflexivity.
Qed.

Lemma lift_http (method : Http.method) route kw (s : state W) :
  Raised.lift (_generic_http_method_request self method route true kw) s =
  (if Http.is_error (reply (http_call self method route kw) s)
   then Raised.Raises (Raised.Earlier (HTTPError (reply (http_call self method route kw) s)))
   else Raised.Returns (reply (http_call self method route kw) s),
   after (http_call self method route kw) s).
Proof.
  unfold Raised.lift. rewrite write_run.
  destruct (Http.is_error _); reflexivity.
Qed.

Lemma collection_run (route : string) (validate : Json.value -> option Obj)
    (s : state W) :
  Listing.collection self route validate s =
  let q := http_call self Http.GET route Http.no_kwargs in
  (if Http.is_error (reply q s)
   then Raised.Raises (Raised.Earlier (HTTPError (reply q s)))
   else
     match Raised.json_of (reply q s) with
     | Raised.Raises e => Raised.Raises e
     | Raised.Returns j =>
         match Raised.iterate j with
         | Raised.Raises e => Raised.Raises e
         | Raised.Returns items =>
             Raised.comprehension (Raised.construct validate) items
         end
     end,
   after q s).
Proof.
  unfold Listing.collection, _get. unfold Raised.bind at 1. rewrite lift_http.
  cbv zeta. destruct (Http.is_error _); [reflexivity|].
  cbv [Raised.bind Raised.pure].
  destruct (Raised.json_of _); [|reflexivity].
  destruct (Raised.iterate _); reflexivity.
Qed.

Lemma comprehension_returns (validate : Json.value -> option Obj)
    (items : list Json.value) (objs : list Obj) :
  Raised.comprehension (Raised.construct validate) items = Raised.Returns objs
  <-> Forall2 (Raised.built validate) items objs.
Proof.
  revert objs. induction items as [|j items IH]; intros objs; simpl.
  - split.
    + intros H. inversion H. constructor.
    + intros H. inversion H. reflexivity.
  - split.
    + intros H. unfold Raised.construct in H at 1.
      destruct j; try discriminate.
      destruct (validate (Json.JDict kvs)) as [o|] eqn:Ev; [|discriminate].
      destruct (Raised.comprehension _ items) as [bs|] eqn:Ec; [|discriminate].
      inversion H; subst. constructor.
      * split; [now exists kvs | exact Ev].
      * now apply IH.
    + intros H. inversion H as [|? o ? bs [[d ->] Ev] Hrest]; subst.
      unfold Raised.construct at 1. rewrite Ev.
      apply IH in Hrest. rewrite Hrest. reflexivity.
Qed.


Lemma list_run (l : Listing.listed) (s : state W) :
  Listing.list_of self l s =
  let q := Listing.list_request self l in
  (if Http.is_error (reply q s)
   then Raised.Raises (Raised.Earlier (HTTPError (reply q s)))
   else
     match Raised.json_of (reply q s) with
     | Raised.Raises e => Raised.Raises e
     | Raised.Returns j =>
         match Raised.iterate j with
         | Raised.Raises e => Raised.Raises e
         | Raised.Returns items =>
             Raised.comprehension
               (Raised.construct (Listing.validate_of l)) items
         end
     end,
   after q s).
Proof.
  destruct l; cbv [Listing.list_of Listing.user_list Listing.group_list
                   Listing.permission_list];
    rewrite collection_run; reflexivity.
Qed.

(** X18.  Each [list] sends one GET to the collection and nothing else; an error
    status, 404 included, is raised as that [HTTPError] itself. *)
Theorem list_reads_once_and_translates_no_error (l : Listing.listed)
    (s : state W) :
  let q := Listing.list_request self l in
  snd (Listing.list_of self l s) = after q s
  /\ (Http.is_error (reply q s) = true ->
      fst (Listing.list_of self l s)
      = Raised.Raises (Raised.Earlier (HTTPError (reply q s)))).
Proof.
  cbv zeta. rewrite list_run. cbv zeta. split; [reflexivity|].
  intros ->. reflexivity.
Qed.

(** X19.  When the collection is answered without error by a JSON list, [list]
    returns a list of objects exactly when every element is a JSON object
    that validates, and then it returns one object per element, in
    order. *)
Theorem list_builds_one_object_per_element (l : Listing.listed)
    (items : list Json.value) (s : state W)
    (Hok : Http.is_error (reply (Listing.list_request self l) s) = false)
    (Hjson : Http.json (reply (Listing.list_request self l) s)
             = Some (Json.JList items)) :
  forall objs,
    fst (Listing.list_of self l s) = Raised.Returns objs
    <-> Forall2 (Raised.built (Listing.validate_of l)) items objs.
Proof.
  intros objs. rewrite list_run. cbv zeta. rewrite Hok.
  unfold Raised.json_of. rewrite Hjson. cbn [Raised.iterate fst].
  apply comprehension_returns.
Qed.

(** X20.  Given one group name as a non-empty string where a list is expected,
    [create_access_token] raises [ValueError] with that string and leaves
    the state as it was: no request is sent. *)
Theorem create_access_token_rejects_a_bare_name (user_name : string)
    (expires_in : Z) (refreshable : bool) (name : string) (s : state W)
    (Hname : Py.truthy_str name = true) :
  AccessToken.create_access_token (Obj := Obj) self user_name expires_in
    refreshable (AccessToken.GroupText name) s
  = (Raised.Raises (Raised.ValueError name), s).
Proof.
  unfold AccessToken.create_access_token. cbv zeta.
  cbn [AccessToken.truthy_groups]. rewrite Hname. reflexivity.
Qed.

Lemma token_run (user_name : string) (expires_in : Z) (refreshable : bool)
    (groups : AccessToken.groups_arg) (s : state W) :
  (forall name, groups = AccessToken.GroupText name -> Py.truthy_str name = false) ->
  AccessToken.create_access_token (Obj := Obj) self user_name expires_in
    refreshable groups s
  = let q := AccessToken.token_request self
               (AccessToken.token_form user_name expires_in refreshable groups) in
    (if Http.ok (reply q s) then
       match Raised.json_of (reply q s) with
       | Raised.Raises e => Raised.Raises e
       | Raised.Returns j =>
           Raised.construct (parse_summary AccessTokenModel) j
       end
     else
       match Raised.json_of (reply q s) with
       | Raised.Raises e => Raised.Raises e
       | Raised.Returns j =>
           match Raised.get_or j "error_description" (Json.JStr "Unknown error") with
           | Raised.Raises e => Raised.Raises e
           | Raised.Returns d => Raised.Raises (Raised.InvalidTokenData d)
           end
       end,
     after q s).
Proof.
  intros Hg. unfold AccessToken.create_access_token. cbv zeta.
  assert (E : forall form,
    Raised.bind
      (Raised.ret (W := W) form)
      (fun payload =>
         Raised.bind
           (Raised.lift
              (_generic_http_method_request self Http.POST
                 ("api/" ++ ArtifactorySecurity._uri ++ "/token") false
                 {| Http.params := []; Http.body := Http.FormBody payload;
                    Http.stream := false |}))
           (fun response =>
              if Http.ok response
              then
                Raised.bind (Raised.pure (Raised.json_of response))
                  (fun j => Raised.pure
                     (Raised.construct (parse_summary AccessTokenModel) j))
              else
                Raised.bind (Raised.pure (Raised.json_of response))
                  (fun j =>
                     Raised.bind
                       (Raised.pure
                          (Raised.get_or j "error_description"
                             (Json.JStr "Unknown error")))
                       (fun description =>
                          Raised.raise (Raised.InvalidTokenData description))))) s
    = let q := AccessToken.token_request self form in
      (if Http.ok (reply q s) then
         match Raised.json_of (reply q s) with
         | Raised.Raises e => Raised.Raises e
         | Raised.Returns j =>
             Raised.construct (parse_summary AccessTokenModel) j
         end
       else
         match Raised.json_of (reply q s) with
         | Raised.Raises e => Raised.Raises e
         | Raised.Returns j =>
             match Raised.get_or j "error_description" (Json.JStr "Unknown error") with
             | Raised.Raises e => Raised.Raises e
             | Raised.Returns d => Raised.Raises (Raised.InvalidTokenData d)
             end
         end,
       after q s)).
  { intros form. cbv zeta. unfold Raised.bind at 1. unfold Raised.ret at 1.
    unfold Raised.bind at 1. unfold Raised.lift. rewrite http_run. cbn [andb].
    unfold AccessToken.token_request.
    destruct (Http.ok _).
    - cbv [Raised.bind Raised.pure]. destruct (Raised.json_of _); reflexivity.
    - cbv [Raised.bind Raised.pure Raised.raise].
      destruct (Raised.json_of _); [|reflexivity].
      destruct (Raised.get_or _ _ _); reflexivity. }
  destruct groups as [|[|n ns]|name]; cbn [AccessToken.truthy_groups].
  - rewrite E. reflexivity.
  - rewrite E. reflexivity.
  - rewrite E. reflexivity.
  - rewrite (Hg name eq_refl). rewrite E. reflexivity.
Qed.


(** X21.  When the groups are [None], a list of names or an empty string,
    [create_access_token] sends one POST of its form; the form holds a
    [scope] exactly when the groups are a list that is not empty, and the
    scope is [member-of-groups:] followed by the names, joined by a comma
    and a space, between double quotes. *)
Theorem access_token_scope_comes_from_a_group_list (user_name : string)
    (expires_in : Z) (refreshable : bool) (groups : AccessToken.groups_arg)
    (s : state W)
    (Hgroups : forall name, groups = AccessToken.GroupText name ->
                            Py.truthy_str name = false) :
  let form := AccessToken.token_form user_name expires_in refreshable groups in
  snd (AccessToken.create_access_token (Obj := Obj) self user_name expires_in
         refreshable groups s)
  = after (AccessToken.token_request self form) s
  /\ (forall v, In ("scope", v) form <->
        exists n ns, groups = AccessToken.GroupList (n :: ns)
                     /\ v = Some (AccessToken.scope_of (n :: ns)))
  /\ AccessToken.scope_of ["g1"; "g2"] = Py.lit "member-of-groups:'g1, g2'".
Proof.
  cbv zeta. rewrite (token_run user_name expires_in refreshable s Hgroups).
  split; [reflexivity | split; [| reflexivity]].
  intros v. unfold AccessToken.token_form. split.
  - intros H. apply in_app_or in H as [H | H].
    + simpl in H. destruct H as [H | [H | [H | []]]]; discriminate.
    + destruct groups as [|[|n ns]|name]; try contradiction.
      destruct H as [H | []]. inversion H. now exists n, ns.
  - intros (n & ns & -> & ->). apply in_or_app. right. now left.
Qed.

(** X22.  When the answer to [create_access_token] is not ok and is a JSON object,
    [InvalidTokenData] is raised with its [error_description], or with
    [Unknown error] when the object has none; the status is never raised as
    an [HTTPError]. *)
Theorem access_token_failure_raises_the_description (user_name : string)
    (expires_in : Z) (refreshable : bool) (groups : AccessToken.groups_arg)
    (d : list (string * Json.value)) (s : state W)
    (Hgroups : forall name, groups = AccessToken.GroupText name ->
                            Py.truthy_str name = false) :
  let q := AccessToken.token_request self
             (AccessToken.token_form user_name expires_in refreshable groups) in
  Http.ok (reply q s) = false ->
  Http.json (reply q s) = Some (Json.JDict d) ->
  fst (AccessToken.create_access_token (Obj := Obj) self user_name expires_in
         refreshable groups s)
  = Raised.Raises
      (Raised.InvalidTokenData
         match Raised.item d "error_description" with
         | Some v => v
         | None => Json.JStr "Unknown error"
         end).
Proof.
  cbv zeta. intros Hno Hjson.
  rewrite (token_run user_name expires_in refreshable s Hgroups). cbv zeta.
  rewrite Hno. unfold Raised.json_of. rewrite Hjson. cbn [fst Raised.get_or].
  destruct (Raised.item d "error_description"); reflexivity.
Qed.

Lemma query_run (aql_object : AqlQuery.Aql) (s : state W) :
  ArtifactoryAql.query self aql_object s =
  let q := ArtifactoryAql.query_request self aql_object in
  (if Http.is_error (reply q s) then Raised.Raises Raised.AqlException
   else
     match Raised.json_of (reply q s) with
     | Raised.Raises e => Raised.Raises e
     | Raised.Returns j => Raised.subscript j "results"
     end,
   after q s).
Proof.
  unfold ArtifactoryAql.query, Raised.try_except, _post. cbv zeta.
  unfold Raised.bind at 1. rewrite lift_http.
  unfold ArtifactoryAql.query_request.
  destruct (Http.is_error _); [reflexivity|].
  cbv [Raised.bind Raised.pure]. unfold Raised.json_of.
  destruct (Http.json _) as [j|]; [|reflexivity].
  destruct j as [| | | | |d]; try reflexivity.
  cbn [Raised.subscript]. destruct (Raised.item d "results"); reflexivity.
Qed.

(** X23.  [query] sends one POST whose body is the compiled query text, and every
    error status is raised as [AqlException]. *)
Theorem query_posts_the_compiled_text_and_hides_the_status
    (aql_object : AqlQuery.Aql) (s : state W) :
  let q := ArtifactoryAql.query_request self aql_object in
  snd (ArtifactoryAql.query self aql_object s) = after q s
  /\ Http.req_body q = Http.TextBody (AqlQuery.create_aql_query aql_object)
  /\ (Http.is_error (reply q s) = true ->
      fst (ArtifactoryAql.query self aql_object s)
      = Raised.Raises Raised.AqlException).
Proof.
  cbv zeta. rewrite query_run. cbv zeta.
  split; [reflexivity | split; [reflexivity|]]. intros ->. reflexivity.
Qed.

(** X24.  When the answer to [query] is a JSON object without error status,
    [query] returns what the object holds under [results] and raises
    [KeyError] when it holds nothing there. *)
Theorem query_returns_the_results_field (aql_object : AqlQuery.Aql)
    (d : list (string * Json.value)) (s : state W) :
  let q := ArtifactoryAql.query_request self aql_object in
  Http.is_error (reply q s) = false ->
  Http.json (reply q s) = Some (Json.JDict d) ->
  fst (ArtifactoryAql.query self aql_object s)
  = match Raised.item d "results" with
    | Some v => Raised.Returns v
    | None => Raised.Raises (Raised.KeyError "results")
    end.
Proof.
  cbv zeta. intros Hok Hjson. rewrite query_run. cbv zeta.
  rewrite Hok. unfold Raised.json_of. rewrite Hjson. reflexivity.
Qed.

End RemainingRuns.

(** X1 for the user [alice] on an empty server. *)
Lemma create_of_absent_witness :
  outcome (Crud.create (Obj := Json.value) Demo.server
             (Crud.NewUserRecord More.alice) (start Examples.empty []))
  = Ok (Json.JDict [("name", Json.JStr "alice"); ("password", Json.JStr "s3cret");
                    ("admin", Json.JBool false)])
  /\ map Http.req_method
       (trace (Crud.create (Obj := Json.value) Demo.server
                 (Crud.NewUserRecord More.alice) (start Examples.empty [])))
     = [Http.GET; Http.PUT; Http.GET].
Proof.
  assert (Habsent :
    outcome (Crud.get (Obj := Json.value) Demo.server Crud.Users "alice"
               (start Examples.empty []))
    = Raise (Crud.not_found Crud.Users "alice")) by (vm_compute; reflexivity).
  destruct (@create_of_absent_puts_then_refetches Demo.store _ Json.value _
              Demo.server (Crud.NewUserRecord More.alice) Examples.empty []
              Habsent) as (_ & _ & H).
  destruct H as [E Ht]; [vm_compute; reflexivity |].
  split; [rewrite E | rewrite Ht]; vm_compute; reflexivity.
Defined.

(** X2 on a server that answers 500. *)
Lemma create_on_server_error_witness :
  outcome (Crud.create (Obj := Json.value) Demo.server
             (Crud.NewUserRecord More.alice) (start [Demo.reply 500 None] []))
  = Raise (ArtifactoryException (HTTPError (Demo.reply 500 None))).
Proof.
  refine (proj1 (@create_writes_nothing_on_other_read_errors Demo.script _
            Json.value _ Demo.server (Crud.NewUserRecord More.alice)
            [Demo.reply 500 None] [] _ eq_refl _)).
  discriminate.
Defined.

(** X4 for the user [bob] on a server that holds him. *)
Lemma delete_of_present_witness :
  trace (ArtifactoryUser.delete (Obj := Json.value) Demo.server "bob"
           (start Examples.with_bob []))
  = [Crud.read_request Demo.server Crud.Users "bob";
     Crud.delete_request Demo.server Crud.Users "bob"].
Proof.
  exact (proj1 (@delete_of_present_sends_one_delete Demo.store _ Json.value _
                  Demo.server Crud.Users _ "bob" Examples.with_bob []
                  (Json.JDict Examples.bob_fields) eq_refl eq_refl)).
Defined.

(** X5 with the first POST answered by 403. *)
Lemma update_failed_write_witness :
  map Http.req_method
    (trace (Crud.update (Obj := Json.value) Demo.server
              (Crud.UserRecord Examples.bob)
              (start ([Demo.reply 200 (Some (Json.JDict Examples.bob_fields));
                       Demo.reply 403 None] : Demo.script) [])))
  = [Http.GET; Http.POST].
Proof.
  rewrite (proj2 (@update_stops_at_a_failed_write Demo.script _ Json.value _
             Demo.server (Crud.UserRecord Examples.bob)
             [Demo.reply 200 (Some (Json.JDict Examples.bob_fields));
              Demo.reply 403 None] [] (Json.JDict Examples.bob_fields)
             ltac:(discriminate) eq_refl eq_refl)).
  reflexivity.
Defined.


(** X8 with a local file of two characters. *)
Lemma deploy_witness :
  map (fun q => (Http.req_method q, Http.req_url q, Http.req_body q))
    (trace (ArtifactoryArtifact.deploy (Obj := Json.value) Demo.server "app.jar"
              "/libs/app-1.0.jar" (start Examples.empty [("app.jar", "PK")])))
  = [(Http.PUT, "http://localhost/artifactory/libs/app-1.0.jar", Http.FileBody "PK");
     (Http.GET, "http://localhost/artifactory/api/storage/libs/app-1.0.jar",
      Http.NoBody)].
Proof.
  rewrite (@deploy_puts_the_file_then_reads_info Demo.store _ Json.value _
             Demo.server "app.jar" "/libs/app-1.0.jar" "PK" Examples.empty
             [("app.jar", "PK")] eq_refl).
  reflexivity.
Defined.



(** X19 on a list of two users. *)
Lemma list_witness :
  fst (Listing.list_of (Obj := Json.value) Demo.server Listing.ListedUsers
         (start ([Demo.reply 200
                    (Some (Json.JList [Json.JDict [("name", Json.JStr "a")];
                                       Json.JDict [("name", Json.JStr "b")]]))]
                 : Demo.script) []))
  = Raised.Returns [Json.JDict [("name", Json.JStr "a")];
                    Json.JDict [("name", Json.JStr "b")]].
Proof.
  apply (@list_builds_one_object_per_element Demo.script Demo.script_transport
           Json.value Demo.any_object More.any_summary Demo.server Listing.ListedUsers
           [Json.JDict [("name", Json.JStr "a")];
            Json.JDict [("name", Json.JStr "b")]]
           (start ([Demo.reply 200
                      (Some (Json.JList [Json.JDict [("name", Json.JStr "a")];
                                         Json.JDict [("name", Json.JStr "b")]]))]
                   : Demo.script) []) eq_refl eq_refl).
  repeat constructor; eexists; reflexivity.
Defined.

(** X20 for the name [devs]. *)
Lemma access_token_bare_name_witness :
  AccessToken.create_access_token (Obj := Json.value) Demo.server "bob" 3600 false
    (AccessToken.GroupText "devs") (start Examples.empty [])
  = (Raised.Raises (Raised.ValueError "devs"), start Examples.empty []).
Proof.
  exact (@create_access_token_rejects_a_bare_name Demo.store _ Json.value _
           Demo.server "bob" 3600 false "devs" (start Examples.empty []) eq_refl).
Defined.

(** X21 for two groups. *)
Lemma access_token_scope_witness :
  map Http.req_body
    (sent (snd (AccessToken.create_access_token (Obj := Json.value) Demo.server
                  "bob" 3600 false (AccessToken.GroupList ["g1"; "g2"])
                  (start Examples.empty []))))
  = [Http.FormBody
       [("username", Some "bob"); ("expires_in", Some "3600");
        ("refreshable", Some "False");
        ("scope", Some (Py.lit "member-of-groups:'g1, g2'"))]].
Proof.
  rewrite (proj1 (@access_token_scope_comes_from_a_group_list Demo.store _
             Json.value _ Demo.server "bob" 3600 false
             (AccessToken.GroupList ["g1"; "g2"]) (start Examples.empty [])
             ltac:(discriminate))).
  reflexivity.
Defined.

(** X22 on an answer without description. *)
Lemma access_token_failure_witness :
  fst (AccessToken.create_access_token (Obj := Json.value) Demo.server "bob" 3600
         false AccessToken.NoGroups
         (start [Demo.reply 400
                   (Some (Json.JDict [("error", Json.JStr "invalid_request")]))] []))
  = Raised.Raises (Raised.InvalidTokenData (Json.JStr "Unknown error")).
Proof.
  exact (@access_token_failure_raises_the_description Demo.script
           Demo.script_transport Json.value _
           Demo.server "bob" 3600 false AccessToken.NoGroups
           [("error", Json.JStr "invalid_request")]
           (start [Demo.reply 400
                     (Some (Json.JDict [("error", Json.JStr "invalid_request")]))] [])
           ltac:(discriminate) eq_refl eq_refl).
Defined.

(** X24 on an answer with an empty result list. *)
Lemma query_results_witness :
  fst (ArtifactoryAql.query Demo.server Examples.items_named_a
         (start [Demo.reply 200
                   (Some (Json.JDict [("results", Json.JList []);
                                      ("range", Json.JDict [])]))] []))
  = Raised.Returns (Json.JList []).
Proof.
  exact (@query_returns_the_results_field Demo.script Demo.script_transport
           Demo.server
           Examples.items_named_a
           [("results", Json.JList []); ("range", Json.JDict [])]
           (start [Demo.reply 200
                     (Some (Json.JDict [("results", Json.JList []);
                                        ("range", Json.JDict [])]))] [])
           eq_refl eq_refl).
Defined.

(** X25 with both a token and a token id. *)
Lemma revoke_prefers_the_token_witness :
  map Http.req_body
    (trace (ArtifactorySecurity.revoke_access_token Demo.server (Some "tok")
              (Some "id7") (start Examples.empty [])))
  = [Http.FormBody [("token", Some "tok")]].
Proof.
  rewrite (proj1 (@revoke_prefers_the_token Demo.store Demo.store_transport
                    Demo.server (Some "tok") (Some "id7")
                    (start Examples.empty []) eq_refl)).
  reflexivity.
Defined.
